(** * Chat relay server (server.js): session registry and message routing

    A shallow embedding of the event handlers of [server.js]: the
    [users] registry, the socket handlers ([connection], [set username],
    [chat message], [disconnect]) and the [/upload] endpoint with its
    storage configuration, followed by the properties of the
    specification checked against them. *)

From Stdlib Require Import ZArith NArith List String Ascii DecimalString Lia.
From Stdlib Require DecimalZ DecimalPos.
From stdpp Require Import base decidable option list gmap.

Local Open Scope N_scope.
Local Set Warnings "-register-all".

(** ** JavaScript strings

    A JavaScript string is a sequence of UTF-16 code units.  The regular
    expression of the storage configuration has no [u] flag and
    [String.prototype.trim] is defined on code units, so this is the
    level at which the program observes its strings. *)

Abbreviation jsstring := (list N) (only parsing).

(** An ASCII literal of the source text, as code units. *)
Definition lit (s : string) : jsstring :=
  map N_of_ascii (list_ascii_of_string s).
Arguments lit s%_string.

(** [String(n)] for an integral number below 1e21: the decimal digits,
    with a leading minus sign for a negative one. *)
Definition number_to_string (n : Z) : jsstring :=
  lit (NilZero.string_of_int (Z.to_int n)).

(** WhiteSpace and LineTerminator code units of ECMAScript, the ones
    [trim] strips. *)
Definition is_white_space (c : N) : bool :=
  (c =? 9) || (c =? 10) || (c =? 11) || (c =? 12) || (c =? 13)
  || (c =? 32) || (c =? 160) || (c =? 5760)
  || ((8192 <=? c) && (c <=? 8202))
  || (c =? 8232) || (c =? 8233) || (c =? 8239) || (c =? 8287)
  || (c =? 12288) || (c =? 65279).

Fixpoint trimStart (s : jsstring) : jsstring :=
  match s with
  | [] => []
  | c :: r => if is_white_space c then trimStart r else s
  end.

Definition trimEnd (s : jsstring) : jsstring := rev (trimStart (rev s)).

(** [s.trim()] *)
Definition trim (s : jsstring) : jsstring := trimEnd (trimStart s).

(** ** JavaScript values

    The values that reach the handlers are the JSON values a client can
    put on the wire, plus [undefined] for a missing argument or
    property, plus the built-in functions a property lookup on a plain
    object can find.  Numbers are kept by their integral value: the
    handlers only test a number for truthiness and copy it. *)

Inductive JSValue : Type :=
| JUndefined
| JNull
| JBool (b : bool)
| JNum (n : Z)
| JStr (s : jsstring)
| JArr (items : list JSValue)
| JObj (props : list (jsstring * JSValue))
| JFunction (name : jsstring).

(** ToBoolean *)
Definition truthy (v : JSValue) : bool :=
  match v with
  | JUndefined | JNull => false
  | JBool b => b
  | JNum n => negb (Z.eqb n 0)
  | JStr s => match s with [] => false | _ :: _ => true end
  | JArr _ | JObj _ | JFunction _ => true
  end.

(** [a || b] *)
Definition js_or (a b : JSValue) : JSValue := if truthy a then a else b.

(** [typeof v === "string"] *)
Definition is_string (v : JSValue) : bool :=
  match v with JStr _ => true | _ => false end.

Inductive JSError : Type := TypeError.

Inductive Outcome (A : Type) : Type :=
| Returned (a : A)
| Threw (e : JSError).
Arguments Returned {A} a.
Arguments Threw {A} e.

(** Own-property lookup in an object literal or a parsed JSON object. *)
Fixpoint own_prop (props : list (jsstring * JSValue)) (k : jsstring) : JSValue :=
  match props with
  | [] => JUndefined
  | (k', v) :: r => if decide (k' = k) then v else own_prop r k
  end.

(** [v.k] for the property names the handlers read ([message],
    [recipientId], [type]): reading a property of [undefined] or [null]
    throws; primitives and arrays have no property of these names. *)
Definition get_prop (v : JSValue) (k : jsstring) : Outcome JSValue :=
  match v with
  | JUndefined | JNull => Threw TypeError
  | JObj props => Returned (own_prop props k)
  | _ => Returned JUndefined
  end.

(** [v.trim()]: only a string has a callable [trim]; on any other
    value the property is missing or not a function and the call
    throws. *)
Definition call_trim (v : JSValue) : Outcome jsstring :=
  match v with
  | JStr s => Returned (trim s)
  | _ => Threw TypeError
  end.

(** ** The socket layer

    The four ways the program emits an event, named after the calls in
    the source. *)

Inductive Emit : Type :=
| io_emit (ev : string) (payload : JSValue)
| io_to_emit (room : JSValue) (ev : string) (payload : JSValue)
| socket_emit (id : jsstring) (ev : string) (payload : JSValue)
| socket_broadcast_emit (id : jsstring) (ev : string) (payload : JSValue).

Definition packet (e : Emit) : string * JSValue :=
  match e with
  | io_emit ev p | io_to_emit _ ev p
  | socket_emit _ ev p | socket_broadcast_emit _ ev p => (ev, p)
  end.

(** Whether connection [c] is a target of an emission, [live] being the
    connected sockets ([io.sockets.sockets]).  The program never calls
    [join], so the only room a socket is in is the one named by its own
    identifier; [io.to] takes one room or an array of rooms. *)
Definition receives (live : gset jsstring) (c : jsstring) (e : Emit) : bool :=
  match e with
  | io_emit _ _ => bool_decide (c ∈ live)
  | io_to_emit room _ _ =>
      match room with
      | JStr r => bool_decide (c ∈ live) && bool_decide (r = c)
      | JArr rooms =>
          bool_decide (c ∈ live)
          && existsb (fun x => match x with
                               | JStr r => bool_decide (r = c)
                               | _ => false
                               end) rooms
      | _ => false
      end
  | socket_emit id _ _ => bool_decide (c = id)
  | socket_broadcast_emit id _ _ =>
      bool_decide (c ∈ live) && negb (bool_decide (c = id))
  end.

(** The events connection [c] receives from a sequence of emissions, in
    order. *)
Definition inbox (live : gset jsstring) (c : jsstring) (es : list Emit)
  : list (string * JSValue) :=
  map packet (List.filter (receives live c) es).

(** [io.sockets.sockets.get(v)]: a [Map] keyed by socket identifier;
    only a string equal to a live identifier finds a socket. *)
Definition sockets_get (live : gset jsstring) (v : JSValue) : option jsstring :=
  match v with
  | JStr r => if decide (r ∈ live) then Some r else None
  | _ => None
  end.

(** [recipientId && io.sockets.sockets.get(recipientId)], the condition
    of both routing conditionals. *)
Definition private_guard (live : gset jsstring) (recipientId : JSValue) : bool :=
  truthy recipientId && bool_decide (is_Some (sockets_get live recipientId)).

(** ** The registry [users]

    A plain object used as a map from socket identifier to name.  It is
    kept as an association list in insertion order, the order
    [Object.entries] enumerates. *)

Fixpoint users_get (u : list (jsstring * jsstring)) (k : jsstring) : option jsstring :=
  match u with
  | [] => None
  | (k', v) :: r => if decide (k' = k) then Some v else users_get r k
  end.

(** [users[k] = v]: an existing key keeps its place. *)
Fixpoint users_set (u : list (jsstring * jsstring)) (k v : jsstring)
  : list (jsstring * jsstring) :=
  match u with
  | [] => [(k, v)]
  | (k', v') :: r =>
      if decide (k' = k) then (k, v) :: r else (k', v') :: users_set r k v
  end.

(** [delete users[k]] *)
Fixpoint users_delete (u : list (jsstring * jsstring)) (k : jsstring)
  : list (jsstring * jsstring) :=
  match u with
  | [] => []
  | (k', v') :: r =>
      if decide (k' = k) then users_delete r k else (k', v') :: users_delete r k
  end.

(** [users[k]] as a value: [undefined] when the key is absent. *)
Definition users_read (u : list (jsstring * jsstring)) (k : jsstring) : JSValue :=
  match users_get u k with
  | Some name => JStr name
  | None => JUndefined
  end.

(** What [Object.prototype] gives for a key a plain object does not
    have itself: its [__proto__], and the built-in methods. *)
Definition object_prototype (k : jsstring) : JSValue :=
  if decide (k = lit "__proto__") then JObj []
  else if decide (k = lit "constructor") then JFunction (lit "Object")
  else if bool_decide
            (k ∈ [ lit "__defineGetter__"; lit "__defineSetter__";
                   lit "hasOwnProperty"; lit "__lookupGetter__";
                   lit "__lookupSetter__"; lit "isPrototypeOf";
                   lit "propertyIsEnumerable"; lit "toString";
                   lit "valueOf"; lit "toLocaleString" ])
       then JFunction k
  else JUndefined.

(** [users[k]] for a key the client chooses: [users] is a plain object,
    so a key it does not have is looked up in [Object.prototype].  (The
    socket handlers index [users] by [socket.id], an identifier the
    socket layer generates; they read it with [users_read].) *)
Definition users_index (u : list (jsstring * jsstring)) (k : jsstring) : JSValue :=
  match users_get u k with
  | Some name => JStr name
  | None => object_prototype k
  end.

(** [Object.entries(users).map(([id, name]) => ({ id, name }))] *)
Definition user_list (u : list (jsstring * jsstring)) : JSValue :=
  JArr (map (fun p => JObj [(lit "id", JStr (fst p)); (lit "name", JStr (snd p))]) u).

Definition Anonymous : jsstring := lit "Anonymous".

(** ** Handlers as computations

    A handler reads and writes the registry, reads the connected
    sockets, emits events and may throw.  What was done before a throw
    stays done. *)

Record World : Type := {
  users : list (jsstring * jsstring);
  sockets : gset jsstring;
  emitted : list Emit
}.

Definition Handler (A : Type) : Type := World -> Outcome A * World.

Definition ret {A} (a : A) : Handler A := fun w => (Returned a, w).

Definition bind {A B} (m : Handler A) (k : A -> Handler B) : Handler B :=
  fun w =>
    match m w with
    | (Returned a, w') => k a w'
    | (Threw e, w') => (Threw e, w')
    end.

Notation "x <- m ;; k" := (bind m (fun x => k))
  (at level 100, m at next level, right associativity).
Notation "m ;; k" := (bind m (fun _ => k))
  (at level 100, right associativity).

Definition lift {A} (o : Outcome A) : Handler A := fun w => (o, w).

(** [try { m } catch (err) { h err }] *)
Definition try_catch {A} (m : Handler A) (h : JSError -> Handler A) : Handler A :=
  fun w =>
    match m w with
    | (Returned a, w') => (Returned a, w')
    | (Threw e, w') => h e w'
    end.

Definition emit (e : Emit) : Handler unit :=
  fun w => (Returned tt,
            {| users := users w; sockets := sockets w;
               emitted := emitted w ++ [e] |}).

Definition read_users : Handler (list (jsstring * jsstring)) :=
  fun w => (Returned (users w), w).

Definition write_users (u : list (jsstring * jsstring)) : Handler unit :=
  fun w => (Returned tt,
            {| users := u; sockets := sockets w; emitted := emitted w |}).

Definition live_sockets : Handler (gset jsstring) :=
  fun w => (Returned (sockets w), w).

(** ** Socket handlers *)

(** [io.on("connection", (socket) => ...)]: the body run for a new
    socket, apart from the registration of its listeners. *)
Definition on_connection (socket_id : jsstring) : Handler unit :=
  emit (socket_emit socket_id "your id" (JStr socket_id)).

(** [username && username.trim() ? username.trim() : "Anonymous"] *)
Definition assigned_name (username : JSValue) : Outcome jsstring :=
  if truthy username then
    match call_trim username with
    | Returned t =>
        if truthy (JStr t) then call_trim username else Returned Anonymous
    | Threw e => Threw e
    end
  else Returned Anonymous.

(** [socket.on("set username", (username) => ...)] *)
Definition on_set_username (socket_id : jsstring) (username : JSValue)
  : Handler unit :=
  assigned <- lift (assigned_name username) ;;
  u <- read_users ;;
  write_users (users_set u socket_id assigned) ;;
  u' <- read_users ;;
  emit (io_emit "user list" (user_list u')) ;;
  emit (socket_broadcast_emit socket_id "user notification"
          (JStr (assigned ++ lit " joined the chat"))).

(** [socket.on("chat message"%string, (data) => ...)]; [now] is the value
    [Date.now()] returns. *)
Definition on_chat_message (socket_id : jsstring) (data : JSValue) (now : Z)
  : Handler unit :=
  u <- read_users ;;
  let username := js_or (users_read u socket_id) (JStr Anonymous) in
  if is_string data then
    emit (io_emit "chat message"
            (JObj [ (lit "username", username);
                    (lit "message", data);
                    (lit "type", JStr (lit "text"));
                    (lit "senderId", JStr socket_id);
                    (lit "recipientId", JNull);
                    (lit "timestamp", JNum now) ]))
  else
    message <- lift (get_prop data (lit "message")) ;;
    rid <- lift (get_prop data (lit "recipientId")) ;;
    let recipientId := js_or rid JNull in
    ty <- lift (get_prop data (lit "type")) ;;
    let payload :=
      JObj [ (lit "username", username);
             (lit "message", message);
             (lit "type", js_or ty (JStr (lit "text")));
             (lit "senderId", JStr socket_id);
             (lit "recipientId", recipientId);
             (lit "timestamp", JNum now) ] in
    live <- live_sockets ;;
    if private_guard live recipientId then
      emit (io_to_emit recipientId "chat message" payload) ;;
      emit (socket_emit socket_id "chat message" payload)
    else
      emit (io_emit "chat message" payload).

(** [socket.on("disconnect", () => ...)] *)
Definition on_disconnect (socket_id : jsstring) : Handler unit :=
  u <- read_users ;;
  let username := users_get u socket_id in
  write_users (users_delete u socket_id) ;;
  u' <- read_users ;;
  emit (io_emit "user list" (user_list u')) ;;
  match username with
  | Some name =>
      if truthy (JStr name) then
        emit (io_emit "user notification" (JStr (name ++ lit " left the chat")))
      else ret tt
  | None => ret tt
  end.

(** ** The upload endpoint *)

(** The character class of [/[^a-zA-Z0-9._-]/g], complemented: the code
    units the storage configuration keeps. *)
Definition is_safe_char (c : N) : bool :=
  ((97 <=? c) && (c <=? 122)) || ((65 <=? c) && (c <=? 90))
  || ((48 <=? c) && (c <=? 57))
  || (c =? 46) || (c =? 95) || (c =? 45).

(** [file.originalname.replace(/[^a-zA-Z0-9._-]/g, "_")] *)
Definition safeName (originalname : jsstring) : jsstring :=
  flat_map (fun c => if is_safe_char c then [c] else lit "_") originalname.

(** The [filename] callback of [multer.diskStorage]; [now] is the value
    [Date.now()] returns when the file is stored. *)
Definition storage_filename (now : Z) (originalname : jsstring) : jsstring :=
  number_to_string now ++ lit "-" ++ safeName originalname.

(** [limits: { fileSize: 20 * 1024 * 1024 }] *)
Definition limits_fileSize : N := 20 * 1024 * 1024.

(** [req.file] as the handler reads it. *)
Record File : Type := {
  originalname : jsstring;
  filename : jsstring;
  size : N
}.

(** The value of a field of a parsed multipart form: a string; an
    array, for a field sent several times or named [f[]] or [f[0]], with
    holes where an index was skipped; or, for a field named [f[key]], an
    object that has no prototype. *)
Inductive FormValue : Type :=
| FStr (s : jsstring)
| FArr (items : list (option FormValue))
| FObj (props : list (jsstring * FormValue)).

(** A form value as a JavaScript value. *)
Fixpoint form_js (v : FormValue) : JSValue :=
  match v with
  | FStr s => JStr s
  | FArr items =>
      JArr (map (fun x => match x with
                          | Some e => form_js e
                          | None => JUndefined
                          end) items)
  | FObj props => JObj (map (fun p => (fst p, form_js (snd p))) props)
  end.

(** A form value used as a property key, [users[v]]: a string is the
    key; an array is converted by [join], a hole giving the empty
    string; an object without prototype has neither [toString] nor
    [valueOf] and the conversion throws. *)
Fixpoint property_key (v : FormValue) : Outcome jsstring :=
  match v with
  | FStr s => Returned s
  | FArr items =>
      (fix join (l : list (option FormValue)) : Outcome jsstring :=
         match l with
         | [] => Returned []
         | x :: r =>
             match match x with
                   | Some e => property_key e
                   | None => Returned []
                   end with
             | Threw err => Threw err
             | Returned s =>
                 match r with
                 | [] => Returned s
                 | _ :: _ =>
                     match join r with
                     | Returned t => Returned (s ++ lit "," ++ t)
                     | Threw err => Threw err
                     end
                 end
             end
         end) items
  | FObj _ => Threw TypeError
  end.

(** The form fields the handler reads from [req.body]; each is a form
    value, or missing. *)
Record FormBody : Type := {
  body_senderId : option FormValue;
  body_recipientId : option FormValue;
  body_username : option FormValue;
  body_type : option FormValue
}.

(** [req.body] is [undefined] when no middleware parsed a body. *)
Record Request : Type := {
  file : option File;
  body : option FormBody
}.

Record Response : Type := {
  status : Z;
  json : JSValue
}.

(** A request as it reaches [upload.single("file")]. *)
Record Incoming : Type := {
  multipart : bool;
  file_part : option (jsstring * N);
  fields : FormBody
}.

Inductive MulterError : Type := LIMIT_FILE_SIZE.

(** [upload.single("file")]: the contract of the middleware the
    endpoint is mounted behind.  A request that is not multipart is
    passed on untouched; a file of more bytes than the size limit is
    refused and the handler is not run; otherwise the file is stored
    under the name the storage configuration gives it. *)
Definition upload_single (now : Z) (r : Incoming) : MulterError + Request :=
  if multipart r then
    match file_part r with
    | None => inr {| file := None; body := Some (fields r) |}
    | Some (name, bytes) =>
        if bytes <=? limits_fileSize then
          inr {| file := Some {| originalname := name;
                                 filename := storage_filename now name;
                                 size := bytes |};
                 body := Some (fields r) |}
        else inl LIMIT_FILE_SIZE
    end
  else inr {| file := None; body := None |}.

(** A form field as a value: [undefined] when the form has no such
    field. *)
Definition field (f : option FormValue) : JSValue :=
  match f with
  | Some v => form_js v
  | None => JUndefined
  end.

(** [senderId && users[senderId] ? users[senderId] : "Anonymous"]; the
    key conversion of [users[senderId]] may throw. *)
Definition sender_name (u : list (jsstring * jsstring)) (senderId : option FormValue)
  : Outcome JSValue :=
  match senderId with
  | Some v =>
      if truthy (form_js v) then
        match property_key v with
        | Returned k =>
            if truthy (users_index u k) then Returned (users_index u k)
            else Returned (JStr Anonymous)
        | Threw err => Threw err
        end
      else Returned (JStr Anonymous)
  | None => Returned (JStr Anonymous)
  end.

(** [username || (senderId && users[senderId] ? users[senderId] :
    "Anonymous") || "Anonymous"]: the registry is not consulted when the
    form gives a username. *)
Definition envelope_username (u : list (jsstring * jsstring)) (fs : FormBody)
  : Outcome JSValue :=
  if truthy (field (body_username fs)) then
    Returned (js_or (field (body_username fs)) (JStr Anonymous))
  else
    match sender_name u (body_senderId fs) with
    | Returned v => Returned (js_or v (JStr Anonymous))
    | Threw err => Threw err
    end.

(** [const { senderId, recipientId, username, type } = req.body]:
    destructuring [undefined] throws. *)
Definition destructure_body (b : option FormBody) : Outcome FormBody :=
  match b with
  | Some fs => Returned fs
  | None => Threw TypeError
  end.

(** The body of the [try] block of the upload handler, returning the
    response it sends. *)
Definition upload_try (req : Request) (now : Z) : Handler Response :=
  let file := file req in
  fs <- lift (destructure_body (body req)) ;;
  let senderId := field (body_senderId fs) in
  let recipientId := field (body_recipientId fs) in
  let type := field (body_type fs) in
  match file with
  | None =>
      ret {| status := 400;
             json := JObj [(lit "error", JStr (lit "No file uploaded."))] |}
  | Some file =>
      let fileUrl := lit "/uploads/" ++ filename file in
      u <- read_users ;;
      name <- lift (envelope_username u fs) ;;
      let payload :=
        JObj [ (lit "username", name);
               (lit "message", JStr fileUrl);
               (lit "type", js_or type (JStr (lit "file")));
               (lit "originalName", JStr (originalname file));
               (lit "senderId", senderId);
               (lit "recipientId", js_or recipientId JNull);
               (lit "timestamp", JNum now) ] in
      live <- live_sockets ;;
      (if private_guard live recipientId then
         emit (io_to_emit recipientId "chat message" payload) ;;
         (if truthy senderId then
            emit (io_to_emit senderId "chat message" payload)
          else ret tt)
       else
         emit (io_emit "chat message" payload)) ;;
      ret {| status := 200;
             json := JObj [(lit "ok", JBool true); (lit "fileUrl", JStr fileUrl)] |}
  end.

(** [app.post("/upload", upload.single("file"), (req, res) => ...)]:
    the handler, [try] block and [catch] clause. *)
Definition upload_handler (req : Request) (now : Z) : Handler Response :=
  try_catch (upload_try req now)
    (fun err =>
       ret {| status := 500;
              json := JObj [(lit "error", JStr (lit "Upload failed."))] |}).

(** ** The server as a transition system *)

Inductive Event : Type :=
| Connection (id : jsstring)
| SetUsername (id : jsstring) (username : JSValue)
| ChatMessage (id : jsstring) (data : JSValue) (now : Z)
| Disconnect (id : jsstring)
| Upload (req : Request) (now : Z).

(** The socket layer adds a socket to [io.sockets.sockets] before the
    connection handler runs, and has removed it when the disconnect
    handler runs. *)
Definition socket_opened (id : jsstring) : Handler unit :=
  fun w => (Returned tt,
            {| users := users w; sockets := {[id]} ∪ sockets w;
               emitted := emitted w |}).

Definition socket_closed (id : jsstring) : Handler unit :=
  fun w => (Returned tt,
            {| users := users w; sockets := sockets w ∖ {[id]};
               emitted := emitted w |}).

Definition handle (e : Event) : Handler (option Response) :=
  match e with
  | Connection id => socket_opened id ;; on_connection id ;; ret None
  | SetUsername id username => on_set_username id username ;; ret None
  | ChatMessage id data now => on_chat_message id data now ;; ret None
  | Disconnect id => socket_closed id ;; on_disconnect id ;; ret None
  | Upload req now => r <- upload_handler req now ;; ret (Some r)
  end.

(** Events handled one after the other, each to completion; an
    exception that escapes a handler ends the run. *)
Fixpoint handle_all (es : list Event) : Handler unit :=
  match es with
  | [] => ret tt
  | e :: r => handle e ;; handle_all r
  end.

(** The server at start-up: [users = {}], no socket, nothing emitted. *)
Definition initial : World :=
  {| users := []; sockets := ∅; emitted := [] |}.

(** The emissions of a handler run from a world whose log is empty. *)
Definition fresh (w : World) : World :=
  {| users := users w; sockets := sockets w; emitted := [] |}.

(** ** Vocabulary of the properties *)

(** A string that does not start, or end, with white space. *)
Definition starts_clean (s : jsstring) : bool :=
  match s with [] => true | c :: _ => negb (is_white_space c) end.

Definition ends_clean (s : jsstring) : bool := starts_clean (rev s).

(** No entry of the registry holds the empty name. *)
Definition names_nonempty (u : list (jsstring * jsstring)) : Prop :=
  ∀ k, users_get u k ≠ Some [].

(** The property names of an emitted payload, in order. *)
Definition payload_keys (e : Emit) : list jsstring :=
  match snd (packet e) with
  | JObj props => map fst props
  | _ => []
  end.

(** The envelope of a bare-string message. *)
Definition text_envelope (username message senderId : jsstring) (now : Z) : JSValue :=
  JObj [ (lit "username", JStr username);
         (lit "message", JStr message);
         (lit "type", JStr (lit "text"));
         (lit "senderId", JStr senderId);
         (lit "recipientId", JNull);
         (lit "timestamp", JNum now) ].

(** A property of an emitted envelope. *)
Definition envelope_field (payload : JSValue) (k : jsstring) : JSValue :=
  match payload with
  | JObj props => own_prop props k
  | _ => JUndefined
  end.

(** Unfolds a handler down to the world it returns. *)
Ltac run_handler :=
  unfold handle, on_connection, on_set_username, on_chat_message,
    on_disconnect, upload_handler, upload_try, try_catch, socket_opened,
    socket_closed, bind, lift, ret, emit, read_users, write_users,
    live_sockets, fresh; simpl.

(** The six properties of a live-channel envelope, and the seven of an
    upload envelope, in the order the object literals list them. *)
Definition envelope_fields : list jsstring :=
  [lit "username"; lit "message"; lit "type"; lit "senderId";
   lit "recipientId"; lit "timestamp"].

Definition upload_envelope_fields : list jsstring :=
  [lit "username"; lit "message"; lit "type"; lit "originalName";
   lit "senderId"; lit "recipientId"; lit "timestamp"].

(** The responses of the upload endpoint. *)
Definition no_file_uploaded : Response :=
  {| status := 400; json := JObj [(lit "error", JStr (lit "No file uploaded."))] |}.

Definition upload_failed : Response :=
  {| status := 500; json := JObj [(lit "error", JStr (lit "Upload failed."))] |}.

Definition upload_ok (fileUrl : jsstring) : Response :=
  {| status := 200;
     json := JObj [(lit "ok", JBool true); (lit "fileUrl", JStr fileUrl)] |}.

(** ** Scenarios

    Three connections with a registered name each, and the messages
    the concrete checks send. *)

Definition sockA : jsstring := lit "sock-A".
Definition sockB : jsstring := lit "sock-B".
Definition sockC : jsstring := lit "sock-C".

Definition three_connected : World :=
  {| users := [(sockA, lit "Alice"); (sockB, lit "Bob"); (sockC, lit "Carol")];
     sockets := {[sockA]} ∪ ({[sockB]} ∪ {[sockC]});
     emitted := [] |}.

(** [{ message: "secret", recipientId: to }] *)
Definition secret_for (to : jsstring) : JSValue :=
  JObj [(lit "message", JStr (lit "secret")); (lit "recipientId", JStr to)].

(** An upload of [photo.png] with the given form fields. *)
Definition photo_upload (senderId recipientId : option jsstring) : Request :=
  {| file := Some {| originalname := lit "photo.png";
                     filename := storage_filename 1700000000000 (lit "photo.png");
                     size := 1024 |};
     body := Some {| body_senderId := option_map FStr senderId;
                     body_recipientId := option_map FStr recipientId;
                     body_username := None;
                     body_type := None |} |}.

(** ** Runs of the server *)

(** The identifiers the registry lists, in the order of
    [Object.entries]. *)
Definition registry_ids (u : list (jsstring * jsstring)) : list jsstring :=
  map fst u.

(** A name in normal form: not empty, no white space at either end. *)
Definition normal_name (s : jsstring) : bool :=
  match s with
  | [] => false
  | _ :: _ => starts_clean s && ends_clean s
  end.

(** The socket layer hands the events of a socket to its listeners
    only while the socket is connected. *)
Definition from_connected (live : gset jsstring) (e : Event) : bool :=
  match e with
  | SetUsername id _ | ChatMessage id _ _ => bool_decide (id ∈ live)
  | _ => true
  end.

Fixpoint run_from_connected (es : list Event) (w : World) : bool :=
  match es with
  | [] => true
  | e :: r => from_connected (sockets w) e && run_from_connected r (handle e w).2
  end.

(** A decimal digit. *)
Definition is_digit (c : N) : bool := (48 <=? c) && (c <=? 57).

(** The list carried by the latest [user list] broadcast of a log, if
    the log has one. *)
Definition is_user_list (e : Emit) : bool :=
  match e with
  | io_emit ev _ => String.eqb ev "user list"
  | _ => false
  end.

Definition last_user_list (es : list Emit) : option JSValue :=
  fold_left (λ acc e, if is_user_list e then Some (packet e).2 else acc) es None.

(** The latest broadcast list is the registry; before any broadcast the
    registry is empty. *)
Definition list_in_sync (w : World) : Prop :=
  match last_user_list (emitted w) with
  | Some l => l = user_list (users w)
  | None => users w = []
  end.

(** * Properties *)

(** ** The registry *)

Section Registry.

Implicit Types (u : list (jsstring * jsstring)) (k v : jsstring).

Lemma users_get_set_eq u k v : users_get (users_set u k v) k = Some v.
Proof.
  induction u as [|[k' v'] r IH]; simpl.
  - by rewrite decide_True.
  - destruct (decide (k' = k)) as [->|Hne]; simpl.
    + by rewrite decide_True.
    + by rewrite decide_False.
Qed.

Lemma users_get_set_ne u k k' v :
  k ≠ k' → users_get (users_set u k v) k' = users_get u k'.
Proof.
  intros Hne. induction u as [|[k0 v0] r IH]; simpl.
  - by rewrite decide_False.
  - destruct (decide (k0 = k)) as [->|Hk]; simpl.
    + by rewrite !decide_False.
    + by rewrite IH.
Qed.

Lemma users_get_delete_eq u k : users_get (users_delete u k) k = None.
Proof.
  induction u as [|[k' v'] r IH]; simpl; [done|].
  destruct (decide (k' = k)); simpl; [done|]. by rewrite decide_False.
Qed.

Lemma users_get_delete_ne u k k' :
  k ≠ k' → users_get (users_delete u k) k' = users_get u k'.
Proof.
  intros Hne. induction u as [|[k0 v0] r IH]; simpl; [done|].
  destruct (decide (k0 = k)) as [->|Hk]; simpl.
  - by rewrite decide_False.
  - by rewrite IH.
Qed.

(** Assigning to a key the object does not have appends the entry. *)
Lemma users_set_fresh u k v :
  users_get u k = None → users_set u k v = u ++ [(k, v)].
Proof.
  induction u as [|[k' v'] r IH]; simpl; [done|].
  destruct (decide (k' = k)); [done|]. intros H. by rewrite IH.
Qed.

Lemma users_delete_absent u k :
  users_get u k = None → users_delete u k = u.
Proof.
  induction u as [|[k' v'] r IH]; simpl; [done|].
  destruct (decide (k' = k)); [done|]. intros H. by rewrite IH.
Qed.

Lemma users_delete_app u1 u2 k :
  users_delete (u1 ++ u2) k = users_delete u1 k ++ users_delete u2 k.
Proof.
  induction u1 as [|[k' v'] r IH]; simpl; [done|].
  destruct (decide (k' = k)); simpl; by rewrite IH.
Qed.

(** Adding a new entry and deleting it again gives the object back. *)
Lemma users_delete_set_fresh u k v :
  users_get u k = None → users_delete (users_set u k v) k = u.
Proof.
  intros H. rewrite users_set_fresh by done.
  rewrite users_delete_app, users_delete_absent by done.
  simpl. rewrite decide_True by done. by rewrite app_nil_r.
Qed.

Lemma users_get_In u k v : users_get u k = Some v → In (k, v) u.
Proof.
  induction u as [|[k' v'] r IH]; simpl; [done|].
  destruct (decide (k' = k)) as [->|]; intros H.
  - left. congruence.
  - right. by apply IH.
Qed.

End Registry.

(** ** [trim] *)

Section Trim.

Implicit Types (s : jsstring).

Lemma trimStart_split s :
  ∃ pre, s = pre ++ trimStart s ∧ forallb is_white_space pre = true.
Proof.
  induction s as [|c r [pre [Heq Hpre]]]; simpl.
  - by exists [].
  - destruct (is_white_space c) eqn:Hc.
    + exists (c :: pre). simpl. rewrite Hc, Hpre. split; [by f_equal|done].
    + by exists [].
Qed.

Lemma trimStart_clean s : starts_clean (trimStart s) = true.
Proof.
  induction s as [|c r IH]; simpl; [done|].
  destruct (is_white_space c) eqn:Hc; [done|]. simpl. by rewrite Hc.
Qed.

Lemma trimStart_nil s :
  trimStart s = [] ↔ forallb is_white_space s = true.
Proof.
  induction s as [|c r IH]; simpl; [done|].
  destruct (is_white_space c); simpl; [done|]. split; discriminate.
Qed.

Lemma forallb_rev (f : N → bool) s : forallb f (rev s) = forallb f s.
Proof.
  induction s as [|c r IH]; simpl; [done|].
  rewrite forallb_app, IH. simpl. rewrite andb_true_r. apply andb_comm.
Qed.

Lemma rev_nil_iff s : rev s = [] ↔ s = [].
Proof.
  split; [|by intros ->].
  intros H. apply (f_equal (@length N)) in H. rewrite length_rev in H.
  by destruct s.
Qed.

Lemma trimEnd_split s :
  ∃ post, s = trimEnd s ++ post ∧ forallb is_white_space post = true.
Proof.
  destruct (trimStart_split (rev s)) as [pre [Heq Hpre]].
  exists (rev pre). split; [|by rewrite forallb_rev].
  unfold trimEnd. rewrite <- rev_app_distr, <- Heq. by rewrite rev_involutive.
Qed.

Lemma trimEnd_clean s : ends_clean (trimEnd s) = true.
Proof.
  unfold ends_clean, trimEnd. rewrite rev_involutive. apply trimStart_clean.
Qed.

Lemma trimEnd_nil s : trimEnd s = [] ↔ forallb is_white_space s = true.
Proof.
  unfold trimEnd. rewrite rev_nil_iff, trimStart_nil. by rewrite forallb_rev.
Qed.

(** Stripping the end keeps a clean start. *)
Lemma trimEnd_starts_clean s :
  starts_clean s = true → starts_clean (trimEnd s) = true.
Proof.
  intros Hs. destruct (trimEnd_split s) as [post [Heq _]].
  destruct (trimEnd s) as [|c t] eqn:Ht; [done|].
  rewrite Heq in Hs. exact Hs.
Qed.

Lemma trim_nil s : trim s = [] ↔ forallb is_white_space s = true.
Proof.
  unfold trim. rewrite trimEnd_nil. split.
  - intros H. apply trimStart_nil.
    pose proof (trimStart_clean s) as Hc.
    destruct (trimStart s) as [|c t]; [done|].
    simpl in H, Hc. destruct (is_white_space c); done.
  - intros H. apply trimStart_nil in H. by rewrite H.
Qed.

(** [trim] removes a run of white space at each end and nothing
    else, and what is left neither starts nor ends with white space. *)
Lemma trim_spec s :
  ∃ pre post,
    s = pre ++ trim s ++ post
    ∧ forallb is_white_space pre = true
    ∧ forallb is_white_space post = true
    ∧ starts_clean (trim s) = true
    ∧ ends_clean (trim s) = true.
Proof.
  destruct (trimStart_split s) as [pre [Hs Hpre]].
  destruct (trimEnd_split (trimStart s)) as [post [Ht Hpost]].
  exists pre, post. unfold trim. repeat split; try done.
  - by rewrite <- Ht.
  - apply trimEnd_starts_clean, trimStart_clean.
  - apply trimEnd_clean.
Qed.

End Trim.

(** ** What each handler does to the world *)

Section Handlers.

Implicit Types (w : World) (id : jsstring) (v : JSValue).

Lemma assigned_name_string (raw : jsstring) :
  assigned_name (JStr raw)
  = Returned (if forallb is_white_space raw then Anonymous else trim raw).
Proof.
  unfold assigned_name. destruct raw as [|c r]; [done|].
  cbn [truthy call_trim].
  destruct (forallb is_white_space (c :: r)) eqn:Hws.
  - apply trim_nil in Hws. by rewrite Hws.
  - destruct (trim (c :: r)) eqn:Ht; [|done].
    apply trim_nil in Ht. congruence.
Qed.

Lemma assigned_name_falsy v : truthy v = false → assigned_name v = Returned Anonymous.
Proof. unfold assigned_name. by intros ->. Qed.

Lemma assigned_name_throws v :
  truthy v = true → is_string v = false → assigned_name v = Threw TypeError.
Proof. unfold assigned_name. intros ->. by destruct v. Qed.

(** The name a name-set event assigns is never empty. *)
Lemma assigned_name_nonempty v (a : jsstring) :
  assigned_name v = Returned a → a ≠ [].
Proof.
  destruct (truthy v) eqn:Hv.
  - destruct v; try (rewrite assigned_name_throws by done; discriminate).
    rewrite assigned_name_string. intros [= <-].
    destruct (forallb is_white_space s) eqn:Hws; [done|].
    intros Ht. apply trim_nil in Ht. congruence.
  - rewrite assigned_name_falsy by done. by intros [= <-].
Qed.

Lemma on_set_username_run id v (a : jsstring) w :
  assigned_name v = Returned a →
  on_set_username id v w
  = (Returned tt,
     {| users := users_set (users w) id a;
        sockets := sockets w;
        emitted := emitted w
          ++ [ io_emit "user list" (user_list (users_set (users w) id a));
               socket_broadcast_emit id "user notification"
                 (JStr (a ++ lit " joined the chat")) ] |}).
Proof. intros Ha. run_handler. rewrite Ha. simpl. by rewrite <- app_assoc. Qed.

Lemma on_set_username_throws id v w :
  assigned_name v = Threw TypeError → on_set_username id v w = (Threw TypeError, w).
Proof. intros Ha. run_handler. by rewrite Ha. Qed.

(** The leave notification of the disconnect handler, if any. *)
Lemma on_disconnect_run id w :
  on_disconnect id w
  = (Returned tt,
     {| users := users_delete (users w) id;
        sockets := sockets w;
        emitted := emitted w
          ++ io_emit "user list" (user_list (users_delete (users w) id))
             :: match users_get (users w) id with
                | Some name =>
                    if truthy (JStr name)
                    then [io_emit "user notification"
                            (JStr (name ++ lit " left the chat"))]
                    else []
                | None => []
                end |}).
Proof.
  run_handler. destruct (users_get (users w) id) as [name|]; [|done].
  destruct name; simpl; [done|]. by rewrite <- app_assoc.
Qed.

Lemma on_chat_message_string id (s : jsstring) (now : Z) w :
  on_chat_message id (JStr s) now w
  = (Returned tt,
     {| users := users w; sockets := sockets w;
        emitted := emitted w
          ++ [io_emit "chat message"
                (JObj [ (lit "username", js_or (users_read (users w) id) (JStr Anonymous));
                        (lit "message", JStr s);
                        (lit "type", JStr (lit "text"));
                        (lit "senderId", JStr id);
                        (lit "recipientId", JNull);
                        (lit "timestamp", JNum now) ])] |}).
Proof. by run_handler. Qed.

(** The chat and upload handlers never write the registry. *)
Lemma on_chat_message_users id v (now : Z) w :
  users (on_chat_message id v now w).2 = users w.
Proof.
  run_handler. destruct (is_string v); [done|].
  destruct (get_prop v (lit "message")); [|done].
  destruct (get_prop v (lit "recipientId")); [|done].
  destruct (get_prop v (lit "type")); [|done].
  by destruct (private_guard _ _).
Qed.

Lemma upload_handler_users (req : Request) (now : Z) w :
  users (upload_handler req now w).2 = users w.
Proof.
  run_handler. destruct (destructure_body (body req)); [|done].
  destruct (file req); [|done].
  destruct (envelope_username _ _); [|done]. simpl.
  destruct (private_guard _ _); [|done].
  by destruct (truthy _).
Qed.

(** The registry after one event. *)
Lemma handle_users (e : Event) w :
  users (handle e w).2
  = match e with
    | SetUsername id v =>
        match assigned_name v with
        | Returned a => users_set (users w) id a
        | Threw _ => users w
        end
    | Disconnect id => users_delete (users w) id
    | _ => users w
    end.
Proof.
  destruct e as [id|id v|id v now|id|req now].
  - done.
  - unfold handle, bind at 1.
    destruct (assigned_name v) as [a|[]] eqn:Ha.
    + by rewrite (on_set_username_run _ _ a).
    + by rewrite on_set_username_throws.
  - pose proof (on_chat_message_users id v now w) as H.
    unfold handle, bind at 1. by destruct (on_chat_message id v now w) as [[|] ?].
  - unfold handle, bind at 1. simpl. unfold bind at 1.
    by rewrite on_disconnect_run.
  - pose proof (upload_handler_users req now w) as H.
    unfold handle, bind at 1. by destruct (upload_handler req now w) as [[|] ?].
Qed.

(** No handler ever stores an empty name. *)
Lemma handle_names_nonempty (e : Event) w :
  names_nonempty (users w) → names_nonempty (users (handle e w).2).
Proof.
  intros Hw. rewrite handle_users. destruct e as [id|id v|id v now|id|req now]; try done.
  - destruct (assigned_name v) as [a|] eqn:Ha; [|done].
    intros k. destruct (decide (id = k)) as [<-|Hne].
    + rewrite users_get_set_eq. intros [= ->]. by eapply assigned_name_nonempty.
    + rewrite users_get_set_ne by done. apply Hw.
  - intros k. destruct (decide (id = k)) as [<-|Hne].
    + by rewrite users_get_delete_eq.
    + rewrite users_get_delete_ne by done. apply Hw.
Qed.

Lemma initial_names_nonempty : names_nonempty (users initial).
Proof. by intros k. Qed.

(** Hence every registry the server can reach holds non-empty names
    only. *)
Lemma handle_all_names_nonempty (es : list Event) w :
  names_nonempty (users w) → names_nonempty (users (handle_all es w).2).
Proof.
  revert w. induction es as [|e r IH]; intros w Hw; [done|].
  simpl. unfold bind at 1.
  pose proof (handle_names_nonempty e w Hw) as He.
  destruct (handle e w) as [[x|err] w1]; simpl in *; [by apply IH|done].
Qed.

(** With non-empty names, [users[id] || "Anonymous"] is the registered
    name, or ["Anonymous"] when there is none. *)
Lemma username_of_sender (u : list (jsstring * jsstring)) id :
  names_nonempty u →
  js_or (users_read u id) (JStr Anonymous)
  = JStr (default Anonymous (users_get u id)).
Proof.
  intros Hu. unfold js_or, users_read. specialize (Hu id).
  destruct (users_get u id) as [[|c r]|]; done.
Qed.

End Handlers.

(** ** Routing *)

Section Routing.

Implicit Types (w : World) (id r c : jsstring) (live : gset jsstring).

Lemma get_prop_returns (v : JSValue) (k k' : jsstring) (x : JSValue) :
  get_prop v k = Returned x → ∃ y, get_prop v k' = Returned y.
Proof. destruct v; simpl; try discriminate; eauto. Qed.

Lemma get_prop_string (v : JSValue) (k : jsstring) (x : JSValue) :
  is_string v = true → get_prop v k = Returned x → x = JUndefined.
Proof. destruct v; try discriminate. by intros _ [= <-]. Qed.

Lemma private_guard_true live (v : JSValue) :
  private_guard live v = true → ∃ r, v = JStr r ∧ r ≠ [] ∧ r ∈ live.
Proof.
  unfold private_guard. intros [Ht Hs]%andb_true_iff.
  apply bool_decide_eq_true in Hs as [x Hx].
  destruct v as [| | | |r| | |]; try discriminate.
  exists r. simpl in Hx. destruct (decide (r ∈ live)); [|discriminate].
  by destruct r.
Qed.

Lemma private_guard_live live r :
  r ≠ [] → r ∈ live → private_guard live (JStr r) = true.
Proof.
  intros Hr Hl. unfold private_guard. destruct r as [|c0 r0]; [done|].
  simpl. rewrite decide_True by done. apply bool_decide_eq_true_2. eauto.
Qed.

Lemma private_guard_or_null live (v : JSValue) :
  private_guard live (js_or v JNull) = private_guard live v.
Proof.
  unfold js_or. destruct (truthy v) eqn:Hv; [done|].
  unfold private_guard. by rewrite Hv.
Qed.

Lemma inbox_broadcast live c (ev : string) (p : JSValue) :
  inbox live c [io_emit ev p] = if decide (c ∈ live) then [(ev, p)] else [].
Proof.
  unfold inbox. simpl. destruct (decide (c ∈ live)).
  - by rewrite bool_decide_eq_true_2.
  - by rewrite bool_decide_eq_false_2.
Qed.

Lemma inbox_app live c (es1 es2 : list Emit) :
  inbox live c (es1 ++ es2) = inbox live c es1 ++ inbox live c es2.
Proof. unfold inbox. by rewrite List.filter_app, map_app. Qed.

Lemma inbox_room live c r (ev : string) (p : JSValue) :
  inbox live c [io_to_emit (JStr r) ev p]
  = if decide (c ∈ live ∧ r = c) then [(ev, p)] else [].
Proof.
  unfold inbox. simpl.
  destruct (decide (c ∈ live ∧ r = c)) as [[H1 H2]|Hn].
  - by rewrite !bool_decide_eq_true_2.
  - destruct (decide (c ∈ live)); [|by rewrite bool_decide_eq_false_2].
    rewrite bool_decide_eq_true_2 by done.
    rewrite bool_decide_eq_false_2; [done|]. intros ->. by apply Hn.
Qed.

Lemma inbox_socket live c id (ev : string) (p : JSValue) :
  inbox live c [socket_emit id ev p] = if decide (c = id) then [(ev, p)] else [].
Proof.
  unfold inbox. simpl. destruct (decide (c = id)).
  - by rewrite bool_decide_eq_true_2.
  - by rewrite bool_decide_eq_false_2.
Qed.

(** The live channel, for a payload that is not a bare string: the two
    branches of the routing conditional. *)
Lemma on_chat_message_object id (data rid : JSValue) (now : Z) w :
  is_string data = false →
  get_prop data (lit "recipientId") = Returned rid →
  ∃ payload,
    envelope_field payload (lit "senderId") = JStr id
    ∧ envelope_field payload (lit "recipientId") = js_or rid JNull
    ∧ payload_keys (io_emit "chat message" payload)
      = [lit "username"; lit "message"; lit "type"; lit "senderId";
         lit "recipientId"; lit "timestamp"]
    ∧ on_chat_message id data now w
      = (Returned tt,
         {| users := users w; sockets := sockets w;
            emitted := emitted w ++
              if private_guard (sockets w) rid
              then [io_to_emit (js_or rid JNull) "chat message" payload;
                    socket_emit id "chat message" payload]
              else [io_emit "chat message" payload] |}).
Proof.
  intros Hs Hrid.
  destruct (get_prop_returns _ _ (lit "message") _ Hrid) as [m Hm].
  destruct (get_prop_returns _ _ (lit "type") _ Hrid) as [ty Hty].
  eexists. split; [|split; [|split]]; cycle 3.
  - run_handler. rewrite Hs, Hm, Hrid, Hty.
    rewrite <- (private_guard_or_null (sockets w) rid).
    destruct (private_guard _ _); simpl; [|reflexivity]. by rewrite <- app_assoc.
  - done.
  - done.
  - done.
Qed.

(** The upload handler, for a request with a file and a parsed body
    whose username can be worked out. *)
Lemma upload_handler_file
    (req : Request) (f : File) (fs : FormBody) (name : JSValue) (now : Z) w :
  file req = Some f → body req = Some fs →
  envelope_username (users w) fs = Returned name →
  ∃ payload,
    envelope_field payload (lit "senderId") = field (body_senderId fs)
    ∧ envelope_field payload (lit "recipientId")
      = js_or (field (body_recipientId fs)) JNull
    ∧ envelope_field payload (lit "message") = JStr (lit "/uploads/" ++ filename f)
    ∧ payload_keys (io_emit "chat message" payload)
      = [lit "username"; lit "message"; lit "type"; lit "originalName";
         lit "senderId"; lit "recipientId"; lit "timestamp"]
    ∧ upload_handler req now w
      = (Returned {| status := 200;
                     json := JObj [ (lit "ok", JBool true);
                                    (lit "fileUrl", JStr (lit "/uploads/" ++ filename f)) ] |},
         {| users := users w; sockets := sockets w;
            emitted := emitted w ++
              if private_guard (sockets w) (field (body_recipientId fs))
              then io_to_emit (field (body_recipientId fs)) "chat message" payload
                   :: (if truthy (field (body_senderId fs))
                       then [io_to_emit (field (body_senderId fs)) "chat message" payload]
                       else [])
              else [io_emit "chat message" payload] |}).
Proof.
  intros Hf Hb Hname. eexists. split; [|split; [|split; [|split]]]; cycle 4.
  - run_handler. rewrite Hb, Hf. simpl. rewrite Hname. simpl.
    destruct (private_guard _ _); simpl; [|reflexivity].
    destruct (truthy (field (body_senderId fs))); simpl.
    + by rewrite <- app_assoc.
    + done.
  - done.
  - done.
  - done.
  - done.
Qed.

(** The upload handler when working out the username throws: the
    [catch] clause answers, and nothing was emitted. *)
Lemma upload_handler_throws
    (req : Request) (f : File) (fs : FormBody) (err : JSError) (now : Z) w :
  file req = Some f → body req = Some fs →
  envelope_username (users w) fs = Threw err →
  upload_try req now w = (Threw err, w)
  ∧ upload_handler req now w
    = (Returned {| status := 500;
                   json := JObj [(lit "error", JStr (lit "Upload failed."))] |}, w).
Proof.
  intros Hf Hb Hname. split; run_handler; rewrite Hb, Hf; simpl;
    rewrite Hname; by destruct w.
Qed.

(** With no username in the form, a senderId that is missing or a
    string never makes the lookup throw. *)
Lemma envelope_username_returns (u : list (jsstring * jsstring)) (fs : FormBody) :
  body_senderId fs = None ∨ (∃ s, body_senderId fs = Some (FStr s)) →
  ∃ name, envelope_username u fs = Returned name.
Proof.
  intros Hs. unfold envelope_username.
  destruct (truthy (field (body_username fs))); [eauto|].
  destruct Hs as [-> | [s ->]]; simpl; [eauto|].
  destruct s as [|c r]; simpl; [eauto|].
  destruct (truthy (users_index u (c :: r))); eauto.
Qed.

End Routing.

(** ** Session registry: lifecycle of an entry *)

Lemma users_get_delete_None (u : list (jsstring * jsstring)) (k k' : jsstring) :
  users_get u k' = None → users_get (users_delete u k) k' = None.
Proof.
  intros H. destruct (decide (k = k')) as [->|Hne].
  - apply users_get_delete_eq.
  - by rewrite users_get_delete_ne.
Qed.

(** C1, as stated, fails: after the connect event of a first client
    the registry has no entry for it, so none with the name
    "Anonymous". *)
Lemma C1_connect_registers_nothing :
  users_get (users (handle (Connection sockA) initial).2) sockA ≠ Some Anonymous.
Proof. vm_compute. discriminate. Qed.

(** C1, amended: the connect event leaves the registry as it is, and a
    connection without an entry has its messages sent under the name
    "Anonymous", which the chat handler falls back to; an entry for a
    connection appears only through that connection's name-set event,
    and an existing entry disappears only through that connection's
    disconnect event. *)
Theorem C1_registry_lifecycle (w : World) (id : jsstring) :
  users (handle (Connection id) w).2 = users w
  ∧ (users_get (users w) id = None →
     ∀ (s : jsstring) (now : Z),
       emitted (on_chat_message id (JStr s) now (fresh w)).2
       = [io_emit "chat message" (text_envelope Anonymous s id now)])
  ∧ (∀ e : Event,
       users_get (users w) id = None →
       users_get (users (handle e w).2) id ≠ None →
       ∃ v, e = SetUsername id v)
  ∧ (∀ e : Event,
       users_get (users w) id ≠ None →
       users_get (users (handle e w).2) id = None →
       e = Disconnect id).
Proof.
  split; [by rewrite handle_users|]. split; [|split].
  - intros Hnone s now. rewrite on_chat_message_string. simpl.
    unfold users_read. by rewrite Hnone.
  - intros e Hnone. rewrite handle_users.
    destruct e as [id'|id' v|id' v now|id'|req now]; try done.
    + destruct (assigned_name v) as [a|]; [|done].
      destruct (decide (id' = id)) as [->|Hne]; [eauto|].
      by rewrite users_get_set_ne.
    + by rewrite users_get_delete_None.
  - intros e Hsome. rewrite handle_users.
    destruct e as [id'|id' v|id' v now|id'|req now]; try done.
    + destruct (assigned_name v) as [a|]; [|done].
      destruct (decide (id' = id)) as [->|Hne].
      * by rewrite users_get_set_eq.
      * by rewrite users_get_set_ne.
    + destruct (decide (id' = id)) as [->|Hne]; [done|].
      by rewrite users_get_delete_ne.
Qed.

(** The lifecycle on the first client of a server: its message before a
    name is set, the event that creates its entry, the event that removes it. *)
Lemma C1_registry_lifecycle_witness :
  emitted (on_chat_message sockA (JStr (lit "hi")) 7 (fresh initial)).2
  = [io_emit "chat message" (text_envelope Anonymous (lit "hi") sockA 7)]
  ∧ (∃ v, SetUsername sockA (JStr (lit "Alice")) = SetUsername sockA v)
  ∧ Disconnect sockA = Disconnect sockA.
Proof.
  destruct (C1_registry_lifecycle initial sockA) as (_ & H2 & H3 & _).
  destruct (C1_registry_lifecycle three_connected sockA) as (_ & _ & _ & H4).
  split; [|split].
  - apply H2. reflexivity.
  - apply H3; [reflexivity|]. vm_compute. discriminate.
  - apply H4; [|reflexivity]. vm_compute. discriminate.
Defined.

(** ** Private delivery *)

(** C2, as stated, fails: a private message a sender addresses to
    themself reaches them twice, on the live channel and through an
    upload alike. *)
Lemma C2_self_addressed_delivered_twice :
  length (inbox (sockets three_connected) sockA
            (emitted (on_chat_message sockA (secret_for sockA) 7 three_connected).2))
  = 2%nat
  ∧ length (inbox (sockets three_connected) sockA
              (emitted (upload_handler (photo_upload (Some sockA) (Some sockA)) 7
                          three_connected).2))
    = 2%nat.
Proof. split; vm_compute; reflexivity. Qed.

(** C2, amended: in private mode the envelope is delivered to the
    recipient connection and, with no test that the two differ, once
    more to the sender: always on the live channel, and for an upload
    whenever its senderId field is a non-empty string (it reaches a
    connection only if it names a live one).  No other connection
    receives anything; a sender who is the recipient receives the
    envelope twice. *)
Theorem C2_private_delivery (w : World) (r : jsstring) :
  r ≠ [] → r ∈ sockets w →
  (∀ (id : jsstring) (data : JSValue) (now : Z),
     get_prop data (lit "recipientId") = Returned (JStr r) →
     ∃ payload,
       envelope_field payload (lit "recipientId") = JStr r
       ∧ emitted (on_chat_message id data now (fresh w)).2
         = [io_to_emit (JStr r) "chat message" payload;
            socket_emit id "chat message" payload]
       ∧ ∀ c : jsstring,
           inbox (sockets w) c (emitted (on_chat_message id data now (fresh w)).2)
           = (if decide (c = r) then [("chat message"%string, payload)] else [])
             ++ (if decide (c = id) then [("chat message"%string, payload)] else []))
  ∧ (∀ (req : Request) (now : Z) (f : File) (fs : FormBody)
       (sender : option jsstring),
       file req = Some f → body req = Some fs →
       body_recipientId fs = Some (FStr r) →
       body_senderId fs = option_map FStr sender →
       ∃ payload,
         envelope_field payload (lit "recipientId") = JStr r
         ∧ emitted (upload_handler req now (fresh w)).2
           = io_to_emit (JStr r) "chat message" payload
             :: (if truthy (field (body_senderId fs))
                 then [io_to_emit (field (body_senderId fs)) "chat message" payload]
                 else [])
         ∧ ∀ c : jsstring,
             inbox (sockets w) c (emitted (upload_handler req now (fresh w)).2)
             = (if decide (c = r) then [("chat message"%string, payload)] else [])
               ++ (if decide (c ≠ [] ∧ c ∈ sockets w ∧ sender = Some c)
                   then [("chat message"%string, payload)] else [])).
Proof.
  intros Hr Hlive.
  assert (Hor : js_or (JStr r) JNull = JStr r) by (by destruct r).
  assert (Hroom : ∀ c (p : JSValue),
            inbox (sockets w) c [io_to_emit (JStr r) "chat message" p]
            = if decide (c = r) then [("chat message"%string, p)] else []).
  { intros c p. rewrite inbox_room.
    destruct (decide (c = r)) as [->|Hne].
    - by rewrite decide_True.
    - rewrite decide_False; [done|]. by intros [_ ->]. }
  split.
  - intros id data now Hrid.
    assert (Hs : is_string data = false).
    { destruct (is_string data) eqn:Hs; [|done].
      by pose proof (get_prop_string _ _ _ Hs Hrid). }
    destruct (on_chat_message_object id data _ now (fresh w) Hs Hrid)
      as (payload & _ & Hp & _ & Hrun).
    rewrite Hor in Hp, Hrun. simpl in Hrun.
    rewrite (private_guard_live _ _ Hr Hlive) in Hrun.
    exists payload. rewrite Hrun. simpl. split; [done|]. split; [done|].
    intros c.
    change [io_to_emit (JStr r) "chat message" payload;
            socket_emit id "chat message" payload]
      with ([io_to_emit (JStr r) "chat message" payload]
            ++ [socket_emit id "chat message" payload]).
    by rewrite inbox_app, Hroom, inbox_socket.
  - intros req now f fs sender Hf Hb Hrec Hsender.
    destruct (envelope_username_returns (users w) fs) as [name Hname].
    { rewrite Hsender. destruct sender; simpl; eauto. }
    destruct (upload_handler_file req f fs name now (fresh w) Hf Hb Hname)
      as (payload & _ & Hp & _ & _ & Hrun).
    rewrite Hrec in Hp, Hrun. simpl in Hp, Hrun. rewrite Hor in Hp.
    rewrite (private_guard_live _ _ Hr Hlive) in Hrun.
    exists payload. rewrite Hrun. simpl. split; [done|]. split; [done|].
    intros c.
    match goal with |- inbox _ _ (?e :: ?l) = _ =>
      change (e :: l) with ([e] ++ l) end.
    rewrite inbox_app, Hroom. f_equal.
    rewrite Hsender. destruct sender as [[|c0 s0]|]; simpl.
    + rewrite decide_False; [done|]. intros (Hc & _ & [= <-]). done.
    + rewrite inbox_room.
      destruct (decide (c ∈ sockets w ∧ c0 :: s0 = c)) as [[Hin <-]|Hn].
      * by rewrite decide_True.
      * rewrite decide_False; [done|]. intros (_ & Hin & [= <-]). by apply Hn.
    + rewrite decide_False; [done|]. by intros (_ & _ & ?).
Qed.

(** A private message from the first to the second of three clients. *)
Lemma C2_private_delivery_witness :
  ∃ payload,
    envelope_field payload (lit "recipientId") = JStr sockB
    ∧ emitted (on_chat_message sockA (secret_for sockB) 7 (fresh three_connected)).2
      = [io_to_emit (JStr sockB) "chat message" payload;
         socket_emit sockA "chat message" payload]
    ∧ ∀ c : jsstring,
        inbox (sockets three_connected) c
          (emitted (on_chat_message sockA (secret_for sockB) 7 (fresh three_connected)).2)
        = (if decide (c = sockB) then [("chat message"%string, payload)] else [])
          ++ (if decide (c = sockA) then [("chat message"%string, payload)] else []).
Proof.
  assert (Hr : sockB ≠ []) by discriminate.
  assert (Hlive : sockB ∈ sockets three_connected)
    by (vm_compute; reflexivity).
  apply (proj1 (C2_private_delivery three_connected sockB Hr Hlive)).
  reflexivity.
Defined.

(** ** Presence *)

(** C3, as stated, fails: a client that connects and disconnects
    without a name-set event in between causes its own [your id] reply
    and one [user list] broadcast whose list did not change, and neither
    a join nor a leave notification. *)
Lemma C3_no_notification_without_name :
  handle_all [Connection sockA; Disconnect sockA] initial
  = (Returned tt,
     {| users := [];
        sockets := ({[sockA]} ∪ ∅) ∖ {[sockA]};
        emitted := [ socket_emit sockA "your id" (JStr sockA);
                     io_emit "user list" (JArr []) ] |}).
Proof. reflexivity. Qed.

(** C3, amended: for a client whose identifier is not in the registry,
    connect, a name-set event that assigns a name, then disconnect emit,
    in order: the [your id] reply, one [user list] with the client's
    entry added at the end, one join notification to the others, one
    [user list] without that entry, and one leave notification.
    Without the name-set event, connect then disconnect emit only the
    [your id] reply and one [user list] equal to the registry as it was,
    since there is no name to announce.  In both cases the registry is
    afterwards what it was before and has no entry for the client. *)
Theorem C3_presence_round_trip (w : World) (id : jsstring) :
  users_get (users w) id = None →
  (∀ (username : JSValue) (assigned : jsstring),
     assigned_name username = Returned assigned →
     handle_all [Connection id; SetUsername id username; Disconnect id] (fresh w)
     = (Returned tt,
        {| users := users w;
           sockets := ({[id]} ∪ sockets w) ∖ {[id]};
           emitted :=
             [ socket_emit id "your id" (JStr id);
               io_emit "user list" (user_list (users w ++ [(id, assigned)]));
               socket_broadcast_emit id "user notification"
                 (JStr (assigned ++ lit " joined the chat"));
               io_emit "user list" (user_list (users w));
               io_emit "user notification"
                 (JStr (assigned ++ lit " left the chat")) ] |}))
  ∧ handle_all [Connection id; Disconnect id] (fresh w)
    = (Returned tt,
       {| users := users w;
          sockets := ({[id]} ∪ sockets w) ∖ {[id]};
          emitted := [ socket_emit id "your id" (JStr id);
                       io_emit "user list" (user_list (users w)) ] |})
  ∧ (∀ username : JSValue,
       users_get
         (users (handle_all [Connection id; SetUsername id username; Disconnect id]
                   (fresh w)).2) id = None)
  ∧ users_get (users (handle_all [Connection id; Disconnect id] (fresh w)).2) id
    = None.
Proof.
  intros Hnone. split; [|split; [|split]].
  - intros username assigned Ha.
    pose proof (assigned_name_nonempty _ _ Ha) as Hne.
    unfold handle_all. run_handler. rewrite Ha. simpl.
    rewrite users_get_set_eq, users_delete_set_fresh, users_set_fresh by done.
    destruct assigned; done.
  - unfold handle_all. run_handler.
    rewrite Hnone, users_delete_absent by done. done.
  - intros username. unfold handle_all. run_handler.
    destruct (assigned_name username) as [a|]; simpl.
    + destruct (users_get (users_set (users w) id a) id) as [[|c n]|];
        simpl; apply users_get_delete_eq.
    + done.
  - unfold handle_all. run_handler. rewrite Hnone. simpl.
    apply users_get_delete_eq.
Qed.

(** The round trip of a first client that names itself "  Bob ". *)
Lemma C3_presence_round_trip_witness :
  handle_all [Connection sockA; SetUsername sockA (JStr (lit "  Bob ")); Disconnect sockA]
    (fresh initial)
  = (Returned tt,
     {| users := [];
        sockets := ({[sockA]} ∪ ∅) ∖ {[sockA]};
        emitted :=
          [ socket_emit sockA "your id" (JStr sockA);
            io_emit "user list" (user_list ([] ++ [(sockA, lit "Bob")]));
            socket_broadcast_emit sockA "user notification"
              (JStr (lit "Bob" ++ lit " joined the chat"));
            io_emit "user list" (user_list []);
            io_emit "user notification"
              (JStr (lit "Bob" ++ lit " left the chat")) ] |}).
Proof.
  assert (Hnone : users_get (users initial) sockA = None) by reflexivity.
  apply (proj1 (C3_presence_round_trip initial sockA Hnone)
           (JStr (lit "  Bob ")) (lit "Bob")).
  reflexivity.
Defined.

(** ** Broadcast fallback *)

(** The emissions of the chat handler for a payload that is not a bare
    string, with the envelope spelled out. *)
Lemma on_chat_message_emits
    (id : jsstring) (data message rid ty : JSValue) (now : Z) (w : World) :
  is_string data = false →
  get_prop data (lit "message") = Returned message →
  get_prop data (lit "recipientId") = Returned rid →
  get_prop data (lit "type") = Returned ty →
  let payload :=
    JObj [ (lit "username", js_or (users_read (users w) id) (JStr Anonymous));
           (lit "message", message);
           (lit "type", js_or ty (JStr (lit "text")));
           (lit "senderId", JStr id);
           (lit "recipientId", js_or rid JNull);
           (lit "timestamp", JNum now) ] in
  on_chat_message id data now (fresh w)
  = (Returned tt,
     {| users := users w; sockets := sockets w;
        emitted := if private_guard (sockets w) (js_or rid JNull)
                   then [io_to_emit (js_or rid JNull) "chat message" payload;
                         socket_emit id "chat message" payload]
                   else [io_emit "chat message" payload] |}).
Proof.
  intros Hs Hm Hr Ht. run_handler. rewrite Hs, Hm, Hr, Ht.
  by destruct (private_guard _ _).
Qed.

(** The emissions and the response of the upload handler for a request
    with a file and a parsed form whose username can be worked out, with
    the envelope spelled out. *)
Lemma upload_handler_emits
    (req : Request) (f : File) (fs : FormBody) (name : JSValue) (now : Z)
    (w : World) :
  file req = Some f → body req = Some fs →
  envelope_username (users w) fs = Returned name →
  let fileUrl := lit "/uploads/" ++ filename f in
  let payload :=
    JObj [ (lit "username", name);
           (lit "message", JStr fileUrl);
           (lit "type", js_or (field (body_type fs)) (JStr (lit "file")));
           (lit "originalName", JStr (originalname f));
           (lit "senderId", field (body_senderId fs));
           (lit "recipientId", js_or (field (body_recipientId fs)) JNull);
           (lit "timestamp", JNum now) ] in
  upload_handler req now (fresh w)
  = (Returned (upload_ok fileUrl),
     {| users := users w; sockets := sockets w;
        emitted :=
          if private_guard (sockets w) (field (body_recipientId fs))
          then io_to_emit (field (body_recipientId fs)) "chat message" payload
               :: (if truthy (field (body_senderId fs))
                   then [io_to_emit (field (body_senderId fs)) "chat message" payload]
                   else [])
          else [io_emit "chat message" payload] |}).
Proof.
  intros Hf Hb Hname. run_handler. rewrite Hb, Hf. simpl. rewrite Hname. simpl.
  destruct (private_guard _ _); simpl; [|done].
  by destruct (truthy (field (body_senderId fs))).
Qed.

Lemma form_js_string (v : FormValue) (r : jsstring) :
  form_js v = JStr r → v = FStr r.
Proof. destruct v; simpl; try discriminate. by intros [= ->]. Qed.

(** C4, as stated, fails: a chat-message event with the payload null
    has no recipientId, yet the handler throws when it reads the
    message and no connected client receives anything. *)
Lemma C4_null_payload_is_not_broadcast :
  on_chat_message sockA JNull 7 three_connected = (Threw TypeError, three_connected)
  ∧ inbox (sockets three_connected) sockB
      (emitted (on_chat_message sockA JNull 7 three_connected).2) = [].
Proof. split; reflexivity. Qed.

(** C4, amended: for a live-channel message whose payload is neither
    null nor undefined, and for an upload with a file and a parsed form
    whose username can be worked out, delivery is broadcast whenever
    recipientId is absent, null or names no live connection: the
    envelope built from the message is emitted once with [io.emit], so
    that every connected client, the sender included, receives it
    exactly once; a bare string is broadcast whatever it says.  Anything
    but that one broadcast occurs only when recipientId is a string that
    names a live connection. *)
Theorem C4_broadcast_fallback (w : World) :
  (∀ (id s : jsstring) (now : Z),
     let payload :=
       JObj [ (lit "username", js_or (users_read (users w) id) (JStr Anonymous));
              (lit "message", JStr s);
              (lit "type", JStr (lit "text"));
              (lit "senderId", JStr id);
              (lit "recipientId", JNull);
              (lit "timestamp", JNum now) ] in
     on_chat_message id (JStr s) now (fresh w)
     = (Returned tt,
        {| users := users w; sockets := sockets w;
           emitted := [io_emit "chat message" payload] |})
     ∧ ∀ c, c ∈ sockets w →
            inbox (sockets w) c (emitted (on_chat_message id (JStr s) now (fresh w)).2)
            = [("chat message"%string, payload)])
  ∧ (∀ (id : jsstring) (data message rid ty : JSValue) (now : Z),
       is_string data = false →
       get_prop data (lit "message") = Returned message →
       get_prop data (lit "recipientId") = Returned rid →
       get_prop data (lit "type") = Returned ty →
       let payload :=
         JObj [ (lit "username", js_or (users_read (users w) id) (JStr Anonymous));
                (lit "message", message);
                (lit "type", js_or ty (JStr (lit "text")));
                (lit "senderId", JStr id);
                (lit "recipientId", js_or rid JNull);
                (lit "timestamp", JNum now) ] in
       ((rid = JUndefined ∨ rid = JNull ∨ ∀ r, rid = JStr r → r ∉ sockets w) →
        on_chat_message id data now (fresh w)
        = (Returned tt,
           {| users := users w; sockets := sockets w;
              emitted := [io_emit "chat message" payload] |})
        ∧ ∀ c, c ∈ sockets w →
               inbox (sockets w) c (emitted (on_chat_message id data now (fresh w)).2)
               = [("chat message"%string, payload)])
       ∧ (emitted (on_chat_message id data now (fresh w)).2
          ≠ [io_emit "chat message" payload] →
          ∃ r, rid = JStr r ∧ r ∈ sockets w))
  ∧ (∀ (req : Request) (now : Z) (f : File) (fs : FormBody) (name : JSValue),
       file req = Some f → body req = Some fs →
       envelope_username (users w) fs = Returned name →
       let payload :=
         JObj [ (lit "username", name);
                (lit "message", JStr (lit "/uploads/" ++ filename f));
                (lit "type", js_or (field (body_type fs)) (JStr (lit "file")));
                (lit "originalName", JStr (originalname f));
                (lit "senderId", field (body_senderId fs));
                (lit "recipientId", js_or (field (body_recipientId fs)) JNull);
                (lit "timestamp", JNum now) ] in
       ((body_recipientId fs = None
         ∨ ∀ r, body_recipientId fs = Some (FStr r) → r ∉ sockets w) →
        emitted (upload_handler req now (fresh w)).2
        = [io_emit "chat message" payload]
        ∧ ∀ c, c ∈ sockets w →
               inbox (sockets w) c (emitted (upload_handler req now (fresh w)).2)
               = [("chat message"%string, payload)])
       ∧ (emitted (upload_handler req now (fresh w)).2
          ≠ [io_emit "chat message" payload] →
          ∃ r, body_recipientId fs = Some (FStr r) ∧ r ∈ sockets w)).
Proof.
  split; [|split].
  - intros id s now payload. rewrite on_chat_message_string. simpl.
    split; [done|]. intros c Hc. rewrite inbox_broadcast. by rewrite decide_True.
  - intros id data message rid ty now Hs Hm Hr Ht payload.
    rewrite (on_chat_message_emits id data message rid ty now w Hs Hm Hr Ht).
    simpl. rewrite private_guard_or_null.
    destruct (private_guard (sockets w) rid) eqn:Hg.
    + apply private_guard_true in Hg as (r & -> & Hne & Hlive).
      split; [|eauto]. intros [H|[H|H]]; try discriminate.
      by destruct (H r).
    + split; [|done]. intros _. split; [done|].
      intros c Hc. rewrite inbox_broadcast. by rewrite decide_True.
  - intros req now f fs name Hf Hb Hname payload.
    rewrite (upload_handler_emits req f fs name now w Hf Hb Hname). simpl.
    destruct (private_guard (sockets w) (field (body_recipientId fs))) eqn:Hg.
    + apply private_guard_true in Hg as (r & Hfield & Hne & Hlive).
      destruct (body_recipientId fs) as [v|]; [|discriminate].
      apply form_js_string in Hfield as ->.
      split; [|eauto]. intros [H|H]; [discriminate|]. by destruct (H r).
    + split; [|done]. intros _. split; [done|].
      intros c Hc. rewrite inbox_broadcast. by rewrite decide_True.
Qed.

(** A message for an identifier that no connection has. *)
Lemma C4_broadcast_fallback_witness :
  emitted (on_chat_message sockA (secret_for (lit "ghost-id")) 7
             (fresh three_connected)).2
  = [io_emit "chat message"
       (JObj [ (lit "username", JStr (lit "Alice"));
               (lit "message", JStr (lit "secret"));
               (lit "type", JStr (lit "text"));
               (lit "senderId", JStr sockA);
               (lit "recipientId", JStr (lit "ghost-id"));
               (lit "timestamp", JNum 7) ])].
Proof.
  destruct (proj1 (proj2 (C4_broadcast_fallback three_connected)) sockA
              (secret_for (lit "ghost-id")) (JStr (lit "secret"))
              (JStr (lit "ghost-id")) JUndefined 7%Z
              eq_refl eq_refl eq_refl eq_refl) as [Hb _].
  destruct Hb as [Hrun _].
  - right. right. intros r [= <-]. vm_compute. intros H. discriminate H.
  - rewrite Hrun. reflexivity.
Defined.

(** ** Bare-string messages *)

(** C5: a chat-message event whose payload is a bare string [s] is
    always broadcast, whatever the string is: every connected client,
    the sender included, receives exactly one envelope with message
    [s], type "text", recipientId null, senderId the sender's
    identifier and username the sender's registered name, or
    "Anonymous" when the sender has none; nobody else receives
    anything and the registry is untouched. *)
Theorem C5_bare_string_broadcast (w : World) (id s : jsstring) (now : Z) :
  names_nonempty (users w) →
  let envelope :=
    text_envelope (default Anonymous (users_get (users w) id)) s id now in
  on_chat_message id (JStr s) now (fresh w)
  = (Returned tt,
     {| users := users w; sockets := sockets w;
        emitted := [io_emit "chat message" envelope] |})
  ∧ (∀ c, c ∈ sockets w →
          inbox (sockets w) c (emitted (on_chat_message id (JStr s) now (fresh w)).2)
          = [("chat message"%string, envelope)])
  ∧ (∀ c, c ∉ sockets w →
          inbox (sockets w) c (emitted (on_chat_message id (JStr s) now (fresh w)).2)
          = []).
Proof.
  intros Hnames envelope. rewrite on_chat_message_string. simpl.
  rewrite (username_of_sender _ _ Hnames).
  split; [done|]. split; intros c Hc; rewrite inbox_broadcast.
  - by rewrite decide_True.
  - by rewrite decide_False.
Qed.

(** The message "hi" of a client registered as Alice. *)
Lemma C5_bare_string_broadcast_witness :
  on_chat_message sockA (JStr (lit "hi")) 7 (fresh three_connected)
  = (Returned tt,
     {| users := users three_connected; sockets := sockets three_connected;
        emitted := [io_emit "chat message"
                      (text_envelope (lit "Alice") (lit "hi") sockA 7)] |}).
Proof.
  assert (Hnames : names_nonempty (users three_connected)).
  { intros k. simpl. repeat (case_decide; [discriminate|]). discriminate. }
  exact (proj1 (C5_bare_string_broadcast three_connected sockA (lit "hi") 7 Hnames)).
Defined.

(** ** Envelopes *)

(** C6, as stated, fails: the envelope of an upload has a seventh
    property, [originalName]. *)
Lemma C6_upload_envelope_has_originalName :
  map payload_keys
    (emitted (upload_handler (photo_upload (Some sockA) None) 7 three_connected).2)
  = [upload_envelope_fields]
  ∧ upload_envelope_fields ≠ envelope_fields.
Proof. split; [reflexivity|discriminate]. Qed.

(** C6, amended: every emission of the chat handler is a
    [chat message] whose envelope has exactly the six properties
    username, message, type, senderId, recipientId and timestamp; every
    emission of the upload handler is a [chat message] whose envelope
    has those six and [originalName]. *)
Theorem C6_envelope_fields (w : World) (e : Emit) :
  (∀ (id : jsstring) (data : JSValue) (now : Z),
     In e (emitted (on_chat_message id data now (fresh w)).2) →
     fst (packet e) = "chat message"%string ∧ payload_keys e = envelope_fields)
  ∧ (∀ (req : Request) (now : Z),
       In e (emitted (upload_handler req now (fresh w)).2) →
       fst (packet e) = "chat message"%string
       ∧ payload_keys e = upload_envelope_fields).
Proof.
  split.
  - intros id data now.
    destruct (is_string data) eqn:Hs.
    + destruct data; try discriminate. rewrite on_chat_message_string. simpl.
      by intros [<-|[]].
    + destruct (get_prop data (lit "recipientId")) as [rid|err] eqn:Hrid.
      * destruct (on_chat_message_object id data rid now (fresh w) Hs Hrid)
          as (payload & _ & _ & Hkeys & Hrun).
        rewrite Hrun. simpl.
        destruct (private_guard (sockets w) rid); simpl.
        -- by intros [<-|[<-|[]]].
        -- by intros [<-|[]].
      * destruct data; try discriminate; run_handler; done.
  - intros req now.
    destruct (body req) as [fs|] eqn:Hb; [|by run_handler; rewrite Hb].
    destruct (file req) as [f|] eqn:Hf; [|by run_handler; rewrite Hb, Hf].
    destruct (envelope_username (users w) fs) as [name|err] eqn:Hname;
      [|by rewrite (proj2 (upload_handler_throws req f fs err now (fresh w)
                             Hf Hb Hname))].
    destruct (upload_handler_file req f fs name now (fresh w) Hf Hb Hname)
      as (payload & _ & _ & _ & Hkeys & Hrun).
    rewrite Hrun. simpl.
    destruct (private_guard _ _); simpl; [|by intros [<-|[]]].
    destruct (truthy _); simpl.
    + by intros [<-|[<-|[]]].
    + by intros [<-|[]].
Qed.

(** The envelope of a bare-string message. *)
Lemma C6_envelope_fields_witness :
  payload_keys (io_emit "chat message" (text_envelope (lit "Alice") (lit "hi") sockA 7))
  = envelope_fields.
Proof.
  apply (proj1 (C6_envelope_fields three_connected
                  (io_emit "chat message"
                     (text_envelope (lit "Alice") (lit "hi") sockA 7)))
           sockA (JStr (lit "hi")) 7%Z).
  left. reflexivity.
Defined.

(** ** Name normalization *)

(** C7: the name-set handler, given a string, assigns "Anonymous" when
    the string is empty or all white space and the trimmed string
    otherwise, the trimmed string being the input without the white
    space at its two ends ("  Bob " gives "Bob").  The assigned name
    is the one stored for the connection, listed in the [user list]
    broadcast, announced in the join notification and carried by the
    connection's next envelope. *)
Theorem C7_set_username_trims (w : World) (id raw : jsstring) :
  let assigned := if forallb is_white_space raw then Anonymous else trim raw in
  let w' := (on_set_username id (JStr raw) (fresh w)).2 in
  (on_set_username id (JStr raw) (fresh w)).1 = Returned tt
  ∧ users_get (users w') id = Some assigned
  ∧ In (id, assigned) (users w')
  ∧ emitted w'
    = [ io_emit "user list" (user_list (users w'));
        socket_broadcast_emit id "user notification"
          (JStr (assigned ++ lit " joined the chat")) ]
  ∧ (∀ (s : jsstring) (now : Z),
       emitted (on_chat_message id (JStr s) now (fresh w')).2
       = [io_emit "chat message" (text_envelope assigned s id now)])
  ∧ (∃ pre post,
       raw = pre ++ trim raw ++ post
       ∧ forallb is_white_space pre = true
       ∧ forallb is_white_space post = true
       ∧ starts_clean (trim raw) = true
       ∧ ends_clean (trim raw) = true)
  ∧ assigned_name (JStr (lit "  Bob ")) = Returned (lit "Bob")
  ∧ assigned_name (JStr (lit "  ")) = Returned Anonymous
  ∧ assigned_name (JStr (lit "")) = Returned Anonymous.
Proof.
  intros assigned w'.
  pose proof (assigned_name_string raw) as Ha. fold assigned in Ha.
  pose proof (assigned_name_nonempty _ _ Ha) as Hne.
  pose proof (on_set_username_run id _ _ (fresh w) Ha) as Hrun.
  subst w'. rewrite Hrun. simpl.
  split; [done|]. split; [apply users_get_set_eq|].
  split; [apply users_get_In, users_get_set_eq|].
  split; [done|]. split.
  - intros s now. unfold users_read. rewrite users_get_set_eq.
    by destruct assigned.
  - split; [apply trim_spec|]. by vm_compute.
Qed.

(** ** Upload failures *)

(** C8, as stated, fails: a request without a file whose body was not
    parsed is answered 500 "Upload failed.", not 400: the handler reads
    the form fields before it looks at the file. *)
Lemma C8_unparsed_body_answers_500 :
  upload_handler {| file := None; body := None |} 7 three_connected
  = (Returned upload_failed, three_connected)
  ∧ upload_failed ≠ no_file_uploaded.
Proof. split; [reflexivity|discriminate]. Qed.

(** C8, amended: an upload request whose form body was parsed, as that
    of every multipart request is, and whose file is missing is answered
    400 with [{error: "No file uploaded."}], and nothing is emitted or
    written.  When the [try] block throws, the request is answered 500
    with [{error: "Upload failed."}], and nothing was emitted or written
    before the throw. *)
Theorem C8_upload_failures (w : World) (now : Z) :
  (∀ (req : Request) (fs : FormBody),
     file req = None → body req = Some fs →
     upload_handler req now (fresh w) = (Returned no_file_uploaded, fresh w))
  ∧ (∀ (stored : Z) (r : Incoming),
       multipart r = true → file_part r = None →
       ∃ req,
         upload_single stored r = inr req
         ∧ upload_handler req now (fresh w) = (Returned no_file_uploaded, fresh w))
  ∧ (∀ (req : Request) (err : JSError) (w' : World),
       upload_try req now (fresh w) = (Threw err, w') →
       upload_handler req now (fresh w) = (Returned upload_failed, fresh w)
       ∧ w' = fresh w).
Proof.
  assert (H400 : ∀ (req : Request) (fs : FormBody),
            file req = None → body req = Some fs →
            upload_handler req now (fresh w) = (Returned no_file_uploaded, fresh w)).
  { intros req fs Hf Hb. run_handler. by rewrite Hb, Hf. }
  split; [exact H400|]. split.
  - intros stored r Hm Hfile. unfold upload_single. rewrite Hm, Hfile.
    eexists. split; [reflexivity|]. by eapply H400.
  - intros req err w'. unfold upload_handler, try_catch.
    destruct (body req) as [fs|] eqn:Hb.
    + destruct (file req) as [f|] eqn:Hf.
      * destruct (envelope_username (users w) fs) as [name|err'] eqn:Hname.
        -- destruct (upload_handler_file req f fs name now (fresh w) Hf Hb Hname)
             as (payload & _ & _ & _ & _ & Hrun).
           unfold upload_handler, try_catch in Hrun.
           destruct (upload_try req now (fresh w)) as [[resp|err''] w''];
             [discriminate|].
           unfold ret in Hrun. discriminate.
        -- destruct (upload_handler_throws req f fs err' now (fresh w) Hf Hb Hname)
             as [Htry _].
           rewrite Htry. by intros [= <- <-].
      * run_handler. rewrite Hb, Hf. discriminate.
    + run_handler. rewrite Hb. simpl. by intros [= <- <-].
Qed.

(** A parsed form without a file, and a request whose body was not
    parsed. *)
Lemma C8_upload_failures_witness :
  upload_handler
    {| file := None;
       body := Some {| body_senderId := Some (FStr sockA); body_recipientId := None;
                       body_username := None; body_type := None |} |}
    7 (fresh three_connected)
  = (Returned no_file_uploaded, fresh three_connected)
  ∧ upload_handler {| file := None; body := None |} 7 (fresh three_connected)
    = (Returned upload_failed, fresh three_connected).
Proof.
  split.
  - eapply (proj1 (C8_upload_failures three_connected 7)); reflexivity.
  - eapply (proj2 (proj2 (C8_upload_failures three_connected 7))
              {| file := None; body := None |} TypeError (fresh three_connected)).
    reflexivity.
Defined.

(** ** Stored files *)

Lemma safeName_map (name : jsstring) :
  safeName name = map (fun c => if is_safe_char c then c else 95) name.
Proof.
  unfold safeName. induction name as [|c r IH]; simpl; [done|].
  rewrite IH. by destruct (is_safe_char c).
Qed.

(** A sanitized name has only characters of the class, as many as the
    original name. *)
Lemma safeName_safe (name : jsstring) :
  forallb is_safe_char (safeName name) = true.
Proof.
  rewrite safeName_map. induction name as [|c r IH]; simpl; [done|].
  rewrite IH, andb_true_r. by destruct (is_safe_char c) eqn:Hc.
Qed.

Lemma safeName_length (name : jsstring) : length (safeName name) = length name.
Proof. by rewrite safeName_map, length_map. Qed.

(** The class of the regular expression, spelled out. *)
Lemma is_safe_char_spec (c : N) :
  is_safe_char c = true
  ↔ (97 ≤ c ≤ 122 ∨ 65 ≤ c ≤ 90 ∨ 48 ≤ c ≤ 57 ∨ c = 46 ∨ c = 95 ∨ c = 45)%N.
Proof.
  unfold is_safe_char.
  rewrite !orb_true_iff, !andb_true_iff, !N.leb_le, !N.eqb_eq. tauto.
Qed.

(** C9: a file sent in a multipart request is stored under the decimal
    capture time, a hyphen, and its original name in which every
    character outside [A-Za-z0-9._-] has become an underscore and every
    other character is kept; the limit on the file size is 20 MiB, a
    file below it is stored and the response is [{ok: true, fileUrl}]
    with [fileUrl] the stored name under [/uploads/], and a file above
    it is refused.  The response is that one whenever the handler
    answers 200, which it does unless working out the envelope's
    username throws. *)
Theorem C9_stored_filename
  (w : World) (stored now : Z) (r : Incoming) (name : jsstring) (bytes : N) :
  multipart r = true → file_part r = Some (name, bytes) →
  let kept c := (97 ≤ c ≤ 122 ∨ 65 ≤ c ≤ 90 ∨ 48 ≤ c ≤ 57
                 ∨ c = 46 ∨ c = 95 ∨ c = 45)%N in
  (∃ sanitized,
     storage_filename stored name
     = number_to_string stored ++ lit "-" ++ sanitized
     ∧ length sanitized = length name
     ∧ ∀ (i : nat) (c : N),
         name !! i = Some c →
         (kept c → sanitized !! i = Some c)
         ∧ (¬ kept c → sanitized !! i = Some 95%N))
  ∧ limits_fileSize = (20 * 2 ^ 20)%N
  ∧ ((bytes < limits_fileSize)%N →
     ∃ req f,
       upload_single stored r = inr req
       ∧ file req = Some f
       ∧ filename f = storage_filename stored name
       ∧ (∀ resp, (upload_handler req now (fresh w)).1 = Returned resp →
                  status resp = 200%Z →
                  resp = upload_ok (lit "/uploads/" ++ storage_filename stored name))
       ∧ (∀ uname, envelope_username (users w) (fields r) = Returned uname →
                   (upload_handler req now (fresh w)).1
                   = Returned (upload_ok (lit "/uploads/"
                                          ++ storage_filename stored name))))
  ∧ ((limits_fileSize < bytes)%N →
     upload_single stored r = inl LIMIT_FILE_SIZE).
Proof.
  intros Hm Hfile kept. split; [|split; [done|split]].
  - exists (safeName name). split; [done|]. split; [apply safeName_length|].
    intros i c Hi. rewrite safeName_map, list_lookup_fmap, Hi. simpl.
    pose proof (is_safe_char_spec c) as Hspec. fold (kept c) in Hspec.
    destruct (is_safe_char c).
    + split; [done|]. intros Hn. destruct Hn. by apply Hspec.
    + split; [|done]. intros Hk. apply Hspec in Hk. discriminate.
  - intros Hlt. unfold upload_single. rewrite Hm, Hfile.
    destruct (N.leb_spec bytes limits_fileSize) as [_|Hgt]; [|lia].
    eexists _, _. split; [reflexivity|]. split; [reflexivity|].
    split; [reflexivity|].
    match goal with |- context [upload_handler ?rq _ _] => set (req := rq) end.
    assert (Hok : ∀ uname,
              envelope_username (users w) (fields r) = Returned uname →
              (upload_handler req now (fresh w)).1
              = Returned (upload_ok (lit "/uploads/"
                                     ++ storage_filename stored name))).
    { intros uname Hu.
      destruct (upload_handler_file req _ _ uname now (fresh w) eq_refl eq_refl Hu)
        as (payload & _ & _ & _ & _ & Hrun).
      by rewrite Hrun. }
    split; [|exact Hok].
    intros resp Hresp Hstatus.
    destruct (envelope_username (users w) (fields r)) as [uname|err] eqn:Hu.
    + rewrite (Hok uname eq_refl) in Hresp. by injection Hresp as <-.
    + rewrite (proj2 (upload_handler_throws req _ _ err now (fresh w)
                        eq_refl eq_refl Hu)) in Hresp.
      injection Hresp as <-. discriminate.
  - intros Hgt. unfold upload_single. rewrite Hm, Hfile.
    destruct (N.leb_spec bytes limits_fileSize) as [Hle|_]; [lia|done].
Qed.

(** A file named "my file (1).png" of 2048 bytes. *)
Lemma C9_stored_filename_witness :
  storage_filename 1700000000123 (lit "my file (1).png")
  = lit "1700000000123-my_file__1_.png"
  ∧ ∃ req f,
      upload_single 1700000000123
        {| multipart := true;
           file_part := Some (lit "my file (1).png", 2048%N);
           fields := {| body_senderId := Some (FStr sockA); body_recipientId := None;
                        body_username := None; body_type := None |} |}
      = inr req
      ∧ file req = Some f
      ∧ filename f = storage_filename 1700000000123 (lit "my file (1).png")
      ∧ (upload_handler req 1700000000124 (fresh three_connected)).1
        = Returned (upload_ok (lit "/uploads/"
                               ++ storage_filename 1700000000123
                                    (lit "my file (1).png"))).
Proof.
  split; [vm_compute; reflexivity|].
  destruct (proj1 (proj2 (proj2
              (C9_stored_filename three_connected 1700000000123 1700000000124
                 {| multipart := true;
                    file_part := Some (lit "my file (1).png", 2048%N);
                    fields := {| body_senderId := Some (FStr sockA);
                                 body_recipientId := None;
                                 body_username := None; body_type := None |} |}
                 (lit "my file (1).png") 2048%N eq_refl eq_refl))))
    as (req & f & H1 & H2 & H3 & _ & H5).
  - vm_compute. reflexivity.
  - exists req, f. split; [exact H1|]. split; [exact H2|]. split; [exact H3|].
    apply (H5 (JStr (lit "Alice"))). reflexivity.
Defined.

(** ** Name-set payloads that are not strings *)

(** C10: a set-username event whose payload is truthy and not a string
    makes the handler throw a TypeError before anything is assigned or
    emitted: the world is left exactly as it was.  A payload that is
    falsy or a string is handled without error. *)
Theorem C10_set_username_non_string_throws
  (w : World) (id : jsstring) (v : JSValue) :
  (truthy v = true → is_string v = false →
   on_set_username id v w = (Threw TypeError, w)
   ∧ handle (SetUsername id v) w = (Threw TypeError, w))
  ∧ (truthy v = false ∨ is_string v = true →
     ∃ w', on_set_username id v w = (Returned tt, w')).
Proof.
  split.
  - intros Ht Hs.
    pose proof (on_set_username_throws id v w (assigned_name_throws v Ht Hs)) as H.
    split; [done|]. unfold handle, bind. by rewrite H.
  - intros Hv.
    assert (∃ a, assigned_name v = Returned a) as [a Ha].
    { destruct Hv as [Hf|Hs].
      - eexists. by apply assigned_name_falsy.
      - destruct v; try discriminate. eexists. apply assigned_name_string. }
    eexists. by apply on_set_username_run.
Qed.

(** A number, an object, and the falsy number 0 as payloads. *)
Lemma C10_set_username_non_string_throws_witness :
  on_set_username sockA (JNum 42) three_connected = (Threw TypeError, three_connected)
  ∧ on_set_username sockA (JObj [(lit "name", JStr (lit "Bob"))]) three_connected
    = (Threw TypeError, three_connected)
  ∧ ∃ w', on_set_username sockA (JNum 0) three_connected = (Returned tt, w').
Proof.
  split; [|split].
  - apply (proj1 (C10_set_username_non_string_throws three_connected sockA (JNum 42)));
      reflexivity.
  - apply (proj1 (C10_set_username_non_string_throws three_connected sockA
                    (JObj [(lit "name", JStr (lit "Bob"))])));
      reflexivity.
  - apply (proj2 (C10_set_username_non_string_throws three_connected sockA (JNum 0))).
    left. reflexivity.
Defined.

(** * Further properties of the handlers *)

(** ** Names in normal form *)

Lemma trimStart_clean_id (s : jsstring) :
  starts_clean s = true → trimStart s = s.
Proof. destruct s as [|c r]; simpl; [done|]. by destruct (is_white_space c). Qed.

Lemma trim_clean_id (s : jsstring) :
  starts_clean s = true → ends_clean s = true → trim s = s.
Proof.
  intros Hs He. unfold trim, trimEnd. rewrite (trimStart_clean_id s Hs).
  rewrite trimStart_clean_id by exact He. apply rev_involutive.
Qed.

Lemma trim_idempotent (s : jsstring) : trim (trim s) = trim s.
Proof.
  destruct (trim_spec s) as (pre & post & _ & _ & _ & Hs & He).
  by apply trim_clean_id.
Qed.

Lemma normal_name_spec (s : jsstring) :
  normal_name s = true
  ↔ s ≠ [] ∧ starts_clean s = true ∧ ends_clean s = true.
Proof.
  destruct s as [|c r]; [by split; [|intros [? _]]|].
  unfold normal_name. rewrite andb_true_iff.
  split; [by intros [? ?]|by intros (_ & ? & ?)].
Qed.

Lemma assigned_name_normal (v : JSValue) (a : jsstring) :
  assigned_name v = Returned a → normal_name a = true.
Proof.
  intros Ha. pose proof (assigned_name_nonempty _ _ Ha) as Hne.
  destruct (truthy v) eqn:Hv.
  - destruct v; try (rewrite assigned_name_throws in Ha by done; discriminate).
    rewrite assigned_name_string in Ha. injection Ha as <-.
    destruct (forallb is_white_space s); [by vm_compute|].
    destruct (trim_spec s) as (pre & post & _ & _ & _ & Hs & He).
    by apply normal_name_spec.
  - rewrite assigned_name_falsy in Ha by done. injection Ha as <-. by vm_compute.
Qed.

Lemma assigned_name_fixed (a : jsstring) :
  normal_name a = true → assigned_name (JStr a) = Returned a.
Proof.
  intros (Hne & Hs & He)%normal_name_spec. rewrite assigned_name_string.
  rewrite trim_clean_id by done.
  destruct a as [|c r]; [done|]. simpl in Hs. simpl.
  by destruct (is_white_space c).
Qed.

(** X1: whatever the payload of a name-set event, the name the handler
    assigns is not empty and has no white space at either end, and
    sending that name again assigns the very same name. *)
Theorem X1_assigned_name_normal_form (v : JSValue) (a : jsstring) :
  assigned_name v = Returned a →
  a ≠ []
  ∧ starts_clean a = true
  ∧ ends_clean a = true
  ∧ assigned_name (JStr a) = Returned a.
Proof.
  intros Ha. pose proof (assigned_name_normal _ _ Ha) as Hn.
  destruct (proj1 (normal_name_spec a) Hn) as (H1 & H2 & H3).
  repeat split; try done. by apply assigned_name_fixed.
Qed.

(** The payload "  Bob " and the name "Bob" it gives. *)
Lemma X1_assigned_name_normal_form_witness :
  lit "Bob" ≠ []
  ∧ starts_clean (lit "Bob") = true
  ∧ ends_clean (lit "Bob") = true
  ∧ assigned_name (JStr (lit "Bob")) = Returned (lit "Bob").
Proof.
  apply (X1_assigned_name_normal_form (JStr (lit "  Bob "))). reflexivity.
Defined.

(** ** Invariants of the registry *)

Lemma registry_ids_get (u : list (jsstring * jsstring)) (k : jsstring) :
  k ∈ registry_ids u ↔ users_get u k ≠ None.
Proof.
  unfold registry_ids. induction u as [|[k' v'] r IH]; simpl.
  - split; [by intros ?%elem_of_nil|done].
  - rewrite elem_of_cons. destruct (decide (k' = k)) as [->|Hne].
    + split; [done|by left].
    + rewrite IH. split; [by intros [?|?]|by right].
Qed.

Lemma users_set_ids_present (u : list (jsstring * jsstring)) (k v : jsstring) :
  users_get u k ≠ None → registry_ids (users_set u k v) = registry_ids u.
Proof.
  unfold registry_ids. induction u as [|[k' v'] r IH]; simpl; [done|].
  destruct (decide (k' = k)) as [->|Hne]; simpl; [done|].
  intros H. by rewrite IH.
Qed.

Lemma users_set_ids_absent (u : list (jsstring * jsstring)) (k v : jsstring) :
  users_get u k = None → registry_ids (users_set u k v) = registry_ids u ++ [k].
Proof.
  intros H. rewrite users_set_fresh by done. unfold registry_ids.
  by rewrite map_app.
Qed.

Lemma users_set_NoDup (u : list (jsstring * jsstring)) (k v : jsstring) :
  NoDup (registry_ids u) → NoDup (registry_ids (users_set u k v)).
Proof.
  intros Hu. destruct (users_get u k) as [n|] eqn:Hk.
  - rewrite users_set_ids_present; [done|]. by rewrite Hk.
  - rewrite users_set_ids_absent by done.
    apply NoDup_app. split; [done|]. split; [|apply NoDup_singleton].
    intros x Hx ->%list_elem_of_singleton.
    apply registry_ids_get in Hx. done.
Qed.

Lemma users_delete_ids (u : list (jsstring * jsstring)) (k x : jsstring) :
  x ∈ registry_ids (users_delete u k) ↔ x ∈ registry_ids u ∧ x ≠ k.
Proof.
  rewrite !registry_ids_get. destruct (decide (k = x)) as [->|Hne].
  - rewrite users_get_delete_eq. split; [done|by intros [_ ?]].
  - rewrite users_get_delete_ne by done.
    split; [intros ?; split; [done|congruence]|by intros [? _]].
Qed.

Lemma users_delete_NoDup (u : list (jsstring * jsstring)) (k : jsstring) :
  NoDup (registry_ids u) → NoDup (registry_ids (users_delete u k)).
Proof.
  unfold registry_ids. induction u as [|[k' v'] r IH]; simpl; [done|].
  intros [Hk' Hr]%NoDup_cons. destruct (decide (k' = k)); [by apply IH|].
  simpl. apply NoDup_cons. split; [|by apply IH].
  intros Hin. apply Hk'.
  by apply (proj1 (users_delete_ids r k k')).
Qed.

Lemma users_set_Forall (P : jsstring → Prop) (u : list (jsstring * jsstring))
    (k v : jsstring) :
  P v → Forall (λ p, P p.2) u → Forall (λ p, P p.2) (users_set u k v).
Proof.
  intros Hv. induction u as [|[k' v'] r IH]; simpl.
  - intros _. by apply Forall_singleton.
  - intros [Hh Ht]%Forall_cons. destruct (decide (k' = k)).
    + by apply Forall_cons.
    + apply Forall_cons. split; [done|by apply IH].
Qed.

Lemma users_delete_Forall (P : jsstring → Prop) (u : list (jsstring * jsstring))
    (k : jsstring) :
  Forall (λ p, P p.2) u → Forall (λ p, P p.2) (users_delete u k).
Proof.
  induction u as [|[k' v'] r IH]; simpl; [done|].
  intros [Hh Ht]%Forall_cons. destruct (decide (k' = k)); [by apply IH|].
  apply Forall_cons. split; [done|by apply IH].
Qed.

(** A property of the registry that every event keeps holds after every
    run. *)
Lemma handle_all_users_invariant (P : list (jsstring * jsstring) → Prop) :
  (∀ e w, P (users w) → P (users (handle e w).2)) →
  ∀ es w, P (users w) → P (users (handle_all es w).2).
Proof.
  intros Hstep es. induction es as [|e r IH]; intros w Hw; [done|].
  simpl. unfold bind at 1. pose proof (Hstep e w Hw) as He.
  destruct (handle e w) as [[x|err] w1]; simpl in *; [by apply IH|done].
Qed.

(** X2: whatever events the server has handled since start-up, the
    registry lists every identifier at most once. *)
Theorem X2_registry_ids_unique (es : list Event) :
  NoDup (registry_ids (users (handle_all es initial).2)).
Proof.
  apply (handle_all_users_invariant (λ u, NoDup (registry_ids u)));
    [|apply NoDup_nil_2].
  intros e w Hw. rewrite handle_users.
  destruct e as [id|id v|id v now|id|req now]; try done.
  - destruct (assigned_name v); [by apply users_set_NoDup|done].
  - by apply users_delete_NoDup.
Qed.

(** X3: whatever events the server has handled since start-up, every
    name in the registry is in normal form: not empty and without white
    space at either end. *)
Theorem X3_registry_names_normal (es : list Event) :
  Forall (λ p, normal_name p.2 = true) (users (handle_all es initial).2).
Proof.
  apply (handle_all_users_invariant
           (λ u, Forall (λ p, normal_name p.2 = true) u)); [|apply Forall_nil_2].
  intros e w Hw. rewrite handle_users.
  destruct e as [id|id v|id v now|id|req now]; try done.
  - destruct (assigned_name v) as [a|] eqn:Ha; [|done].
    apply (users_set_Forall (λ n, normal_name n = true)); [|done].
    by eapply assigned_name_normal.
  - by apply (users_delete_Forall (λ n, normal_name n = true)).
Qed.

(** ** The registry and the connected sockets *)

Lemma on_chat_message_sockets (id : jsstring) (v : JSValue) (now : Z) (w : World) :
  sockets (on_chat_message id v now w).2 = sockets w.
Proof.
  run_handler. destruct (is_string v); [done|].
  destruct (get_prop v (lit "message")); [|done].
  destruct (get_prop v (lit "recipientId")); [|done].
  destruct (get_prop v (lit "type")); [|done].
  by destruct (private_guard _ _).
Qed.

Lemma upload_handler_sockets (req : Request) (now : Z) (w : World) :
  sockets (upload_handler req now w).2 = sockets w.
Proof.
  run_handler. destruct (destructure_body (body req)); [|done].
  destruct (file req); [|done].
  destruct (envelope_username _ _); [|done]. simpl.
  destruct (private_guard _ _); [|done].
  by destruct (truthy _).
Qed.

(** The connected sockets after one event. *)
Lemma handle_sockets (e : Event) (w : World) :
  sockets (handle e w).2
  = match e with
    | Connection id => {[id]} ∪ sockets w
    | Disconnect id => sockets w ∖ {[id]}
    | _ => sockets w
    end.
Proof.
  destruct e as [id|id v|id v now|id|req now].
  - done.
  - unfold handle, bind at 1.
    destruct (assigned_name v) as [a|[]] eqn:Ha.
    + by rewrite (on_set_username_run _ _ a).
    + by rewrite on_set_username_throws.
  - pose proof (on_chat_message_sockets id v now w) as H.
    unfold handle, bind at 1. by destruct (on_chat_message id v now w) as [[|] ?].
  - unfold handle, bind at 1. simpl. unfold bind at 1.
    by rewrite on_disconnect_run.
  - pose proof (upload_handler_sockets req now w) as H.
    unfold handle, bind at 1. by destruct (upload_handler req now w) as [[|] ?].
Qed.

Lemma handle_within_sockets (e : Event) (w : World) :
  from_connected (sockets w) e = true →
  (∀ k, users_get (users w) k ≠ None → k ∈ sockets w) →
  ∀ k, users_get (users (handle e w).2) k ≠ None → k ∈ sockets (handle e w).2.
Proof.
  intros He Hw k. rewrite handle_users, handle_sockets.
  destruct e as [id|id v|id v now|id|req now]; try by apply Hw.
  - intros Hk. apply elem_of_union_r. by apply Hw.
  - destruct (assigned_name v) as [a|]; [|by apply Hw].
    destruct (decide (id = k)) as [<-|Hne].
    + intros _. simpl in He. by apply bool_decide_eq_true in He.
    + rewrite users_get_set_ne by done. apply Hw.
  - destruct (decide (id = k)) as [<-|Hne].
    + by rewrite users_get_delete_eq.
    + rewrite users_get_delete_ne by done. intros Hk.
      apply elem_of_difference. split; [by apply Hw|].
      intros ->%elem_of_singleton. done.
Qed.

Lemma handle_all_within_sockets (es : list Event) (w : World) :
  run_from_connected es w = true →
  (∀ k, users_get (users w) k ≠ None → k ∈ sockets w) →
  ∀ k, users_get (users (handle_all es w).2) k ≠ None
       → k ∈ sockets (handle_all es w).2.
Proof.
  revert w. induction es as [|e r IH]; intros w Hrun Hw; [done|].
  simpl in Hrun. apply andb_true_iff in Hrun as [He Hr].
  pose proof (handle_within_sockets e w He Hw) as Hstep.
  change (handle_all (e :: r) w) with ((handle e ;; handle_all r) w).
  unfold bind.
  destruct (handle e w) as [[x|err] w1]; simpl in *; [by apply IH|done].
Qed.

(** X4: as long as name-set events reach the server only from connected
    sockets, every identifier the registry lists is the identifier of a
    connected socket: the user list never shows a client that has left. *)
Theorem X4_registry_within_sockets (es : list Event) (id : jsstring) :
  run_from_connected es initial = true →
  id ∈ registry_ids (users (handle_all es initial).2) →
  id ∈ sockets (handle_all es initial).2.
Proof.
  intros Hrun Hid. apply (handle_all_within_sockets es initial Hrun); [done|].
  by apply registry_ids_get.
Qed.

(** Two clients connect and name themselves, the first one leaves: the
    second one, still listed, is connected. *)
Lemma X4_registry_within_sockets_witness :
  sockB ∈ sockets
    (handle_all [ Connection sockA; Connection sockB;
                  SetUsername sockA (JStr (lit "Alice"));
                  SetUsername sockB (JStr (lit "Bob"));
                  Disconnect sockA ] initial).2.
Proof.
  apply X4_registry_within_sockets.
  - vm_compute. reflexivity.
  - apply registry_ids_get. vm_compute. discriminate.
Defined.

(** ** Renaming *)

Lemma users_set_set (u : list (jsstring * jsstring)) (k a b : jsstring) :
  users_set (users_set u k a) k b = users_set u k b.
Proof.
  induction u as [|[k' v'] r IH]; simpl.
  - by rewrite decide_True.
  - destruct (decide (k' = k)) as [->|Hne]; simpl.
    + by rewrite decide_True.
    + rewrite decide_False by done. by rewrite IH.
Qed.

(** X5: the last name-set event wins and leaves no trace of the earlier
    one: two name-set events of a connection in a row leave the registry
    as the second one alone would.  A name-set event of a connection
    that has an entry keeps the order of the listed identifiers, and no
    name-set event changes the name of another connection. *)
Theorem X5_last_name_wins
  (w : World) (id : jsstring) (v1 v2 : JSValue) (a1 a2 : jsstring) :
  assigned_name v1 = Returned a1 → assigned_name v2 = Returned a2 →
  users (handle_all [SetUsername id v1; SetUsername id v2] w).2
  = users (handle (SetUsername id v2) w).2
  ∧ users_get (users (handle (SetUsername id v2) w).2) id = Some a2
  ∧ (users_get (users w) id ≠ None →
     registry_ids (users (handle (SetUsername id v2) w).2)
     = registry_ids (users w))
  ∧ (∀ k, k ≠ id →
          users_get (users (handle (SetUsername id v2) w).2) k
          = users_get (users w) k).
Proof.
  intros H1 H2.
  assert (Hall : users (handle_all [SetUsername id v1; SetUsername id v2] w).2
                 = users_set (users_set (users w) id a1) id a2).
  { change (handle_all [SetUsername id v1; SetUsername id v2] w)
      with ((handle (SetUsername id v1) ;;
             handle (SetUsername id v2) ;; ret tt) w).
    unfold bind at 1.
    pose proof (handle_users (SetUsername id v1) w) as Hu1.
    cbv beta iota in Hu1. rewrite H1 in Hu1.
    destruct (handle (SetUsername id v1) w) as [[x|err] w1] eqn:Hh.
    - simpl in Hu1. unfold bind at 1.
      pose proof (handle_users (SetUsername id v2) w1) as Hu2.
      cbv beta iota in Hu2. rewrite H2, Hu1 in Hu2.
      by destruct (handle (SetUsername id v2) w1) as [[y|err] w2].
    - exfalso. unfold handle, bind in Hh.
      rewrite (on_set_username_run _ _ a1) in Hh by done. discriminate. }
  rewrite Hall, handle_users. cbv beta iota. rewrite H2, users_set_set.
  split; [done|]. split; [apply users_get_set_eq|].
  split; [apply users_set_ids_present|].
  intros k Hk. by rewrite users_get_set_ne.
Qed.

(** Alice renames herself "Al" and then "Ally". *)
Lemma X5_last_name_wins_witness :
  users (handle_all [ SetUsername sockA (JStr (lit "Al"));
                      SetUsername sockA (JStr (lit " Ally ")) ] three_connected).2
  = users (handle (SetUsername sockA (JStr (lit " Ally "))) three_connected).2
  ∧ registry_ids (users (handle (SetUsername sockA (JStr (lit " Ally ")))
                           three_connected).2)
    = registry_ids (users three_connected).
Proof.
  destruct (X5_last_name_wins three_connected sockA
              (JStr (lit "Al")) (JStr (lit " Ally ")) (lit "Al") (lit "Ally")
              eq_refl eq_refl) as (H1 & _ & H3 & _).
  split; [exact H1|]. apply H3. vm_compute. discriminate.
Defined.

(** ** Who hears of a name-set or a disconnect event *)

Lemma inbox_others (live : gset jsstring) (c id : jsstring) (ev : string)
    (p : JSValue) :
  inbox live c [socket_broadcast_emit id ev p]
  = if decide (c ∈ live ∧ c ≠ id) then [(ev, p)] else [].
Proof.
  unfold inbox. simpl.
  destruct (decide (c ∈ live ∧ c ≠ id)) as [[H1 H2]|Hn].
  - by rewrite bool_decide_eq_true_2, bool_decide_eq_false_2.
  - destruct (decide (c ∈ live)); [|by rewrite bool_decide_eq_false_2].
    rewrite bool_decide_eq_true_2 by done.
    rewrite bool_decide_eq_true_2; [done|].
    destruct (decide (c = id)); [done|]. by destruct Hn.
Qed.

(** X6: a name-set event that assigns a name sends the new user list to
    every connected client, the renamed one included, and the join
    notification to every connected client but the renamed one; nobody
    else receives anything. *)
Theorem X6_name_set_deliveries
  (w : World) (id : jsstring) (v : JSValue) (a c : jsstring) :
  assigned_name v = Returned a →
  inbox (sockets w) c (emitted (on_set_username id v (fresh w)).2)
  = if decide (c ∈ sockets w)
    then ("user list"%string, user_list (users_set (users w) id a))
         :: (if decide (c = id) then []
             else [("user notification"%string,
                    JStr (a ++ lit " joined the chat"))])
    else [].
Proof.
  intros Ha. rewrite (on_set_username_run _ _ a) by done. simpl.
  match goal with |- inbox _ _ [?e1; ?e2] = _ =>
    change [e1; e2] with ([e1] ++ [e2]) end.
  rewrite inbox_app, inbox_broadcast, inbox_others.
  destruct (decide (c ∈ sockets w)) as [Hc|Hc].
  - destruct (decide (c = id)) as [->|Hne].
    + rewrite decide_False; [done|]. by intros [_ ?].
    + by rewrite decide_True.
  - rewrite decide_False; [done|]. by intros [? _].
Qed.

(** Bob renames himself: Alice hears both events, Bob only the list. *)
Lemma X6_name_set_deliveries_witness :
  length (inbox (sockets three_connected) sockA
            (emitted (on_set_username sockB (JStr (lit "Robert"))
                        (fresh three_connected)).2)) = 2%nat
  ∧ length (inbox (sockets three_connected) sockB
              (emitted (on_set_username sockB (JStr (lit "Robert"))
                          (fresh three_connected)).2)) = 1%nat.
Proof.
  split.
  - rewrite (X6_name_set_deliveries three_connected sockB
               (JStr (lit "Robert")) (lit "Robert") sockA eq_refl).
    vm_compute. reflexivity.
  - rewrite (X6_name_set_deliveries three_connected sockB
               (JStr (lit "Robert")) (lit "Robert") sockB eq_refl).
    vm_compute. reflexivity.
Defined.

(** X7: when a client disconnects, every client that stays connected
    receives the user list without the leaver's entry, followed by the
    leave notification if the leaver had a name; the leaver, whose
    socket is closed, and anybody not connected receive nothing. *)
Theorem X7_disconnect_deliveries (w : World) (id c : jsstring) :
  inbox (sockets (handle (Disconnect id) (fresh w)).2) c
    (emitted (handle (Disconnect id) (fresh w)).2)
  = if decide (c ∈ sockets w ∧ c ≠ id)
    then ("user list"%string, user_list (users_delete (users w) id))
         :: match users_get (users w) id with
            | Some (n0 :: name) =>
                [("user notification"%string,
                  JStr ((n0 :: name) ++ lit " left the chat"))]
            | _ => []
            end
    else [].
Proof.
  assert (Hrun : handle (Disconnect id) (fresh w)
                 = (Returned None,
                    (on_disconnect id
                       {| users := users w; sockets := sockets w ∖ {[id]};
                          emitted := [] |}).2)).
  { unfold handle, bind, socket_closed, fresh, ret. simpl.
    by rewrite on_disconnect_run. }
  rewrite Hrun, on_disconnect_run. simpl.
  assert (Hlive : c ∈ sockets w ∖ {[id]} ↔ c ∈ sockets w ∧ c ≠ id).
  { rewrite elem_of_difference, not_elem_of_singleton. done. }
  match goal with |- inbox _ _ (?e :: ?l) = _ =>
    change (e :: l) with ([e] ++ l) end.
  rewrite inbox_app, inbox_broadcast.
  destruct (decide (c ∈ sockets w ∧ c ≠ id)) as [Hc|Hc].
  - rewrite decide_True by (by apply Hlive). simpl. f_equal.
    destruct (users_get (users w) id) as [[|n0 name]|]; simpl; try done.
    rewrite inbox_broadcast. by rewrite decide_True by (by apply Hlive).
  - rewrite decide_False by (by rewrite Hlive). simpl.
    destruct (users_get (users w) id) as [[|n0 name]|]; simpl; try done.
    rewrite inbox_broadcast. by rewrite decide_False by (by rewrite Hlive).
Qed.

Lemma users_delete_ids_filter (u : list (jsstring * jsstring)) (k : jsstring) :
  registry_ids (users_delete u k) = filter (λ x, x ≠ k) (registry_ids u).
Proof.
  unfold registry_ids. induction u as [|[k' v'] r IH]; simpl; [done|].
  destruct (decide (k' = k)) as [->|Hne].
  - rewrite filter_cons_False by (by intros ?). exact IH.
  - rewrite filter_cons_True by done. simpl. by rewrite IH.
Qed.

(** X8: a disconnect event removes the entry of the leaving connection
    and nothing else: the other entries keep their names and their
    order, and when the connection has no entry the registry is left as
    it is. *)
Theorem X8_disconnect_removes_one_entry (w : World) (id : jsstring) :
  users_get (users (handle (Disconnect id) w).2) id = None
  ∧ (∀ k, k ≠ id →
          users_get (users (handle (Disconnect id) w).2) k
          = users_get (users w) k)
  ∧ registry_ids (users (handle (Disconnect id) w).2)
    = filter (λ x, x ≠ id) (registry_ids (users w))
  ∧ (users_get (users w) id = None →
     users (handle (Disconnect id) w).2 = users w).
Proof.
  rewrite handle_users. split; [apply users_get_delete_eq|].
  split; [intros k Hk; by apply users_get_delete_ne|].
  split; [apply users_delete_ids_filter|apply users_delete_absent].
Qed.

(** Carol, who is registered, leaves; then a client without an entry
    leaves. *)
Lemma X8_disconnect_removes_one_entry_witness :
  users_get (users (handle (Disconnect sockC) three_connected).2) sockA
  = Some (lit "Alice")
  ∧ users (handle (Disconnect (lit "sock-D")) three_connected).2
    = users three_connected.
Proof.
  destruct (X8_disconnect_removes_one_entry three_connected sockC)
    as (_ & H2 & _).
  destruct (X8_disconnect_removes_one_entry three_connected (lit "sock-D"))
    as (_ & _ & _ & H4).
  split.
  - rewrite (H2 sockA); [reflexivity|]. vm_compute. discriminate.
  - apply H4. reflexivity.
Defined.

(** ** Chat messages: payloads and identity *)

(** X9: a chat-message event whose payload is undefined or null makes
    the handler throw a TypeError when it reads the message, with
    nothing emitted and the world as it was; any other payload is
    handled without error. *)
Theorem X9_chat_message_without_payload
  (w : World) (id : jsstring) (data : JSValue) (now : Z) :
  (data = JUndefined ∨ data = JNull →
   on_chat_message id data now w = (Threw TypeError, w)
   ∧ handle (ChatMessage id data now) w = (Threw TypeError, w))
  ∧ (data ≠ JUndefined → data ≠ JNull →
     (on_chat_message id data now w).1 = Returned tt).
Proof.
  split.
  - intros [-> | ->]; by split.
  - intros H1 H2. destruct data; try done; run_handler;
      try (by destruct (private_guard _ _)).
Qed.

Lemma X9_chat_message_without_payload_witness :
  on_chat_message sockA JNull 7 three_connected = (Threw TypeError, three_connected)
  ∧ (on_chat_message sockA (JNum 5) 7 three_connected).1 = Returned tt.
Proof.
  split.
  - apply (proj1 (X9_chat_message_without_payload three_connected sockA JNull 7)).
    by right.
  - apply (proj2 (X9_chat_message_without_payload three_connected sockA (JNum 5) 7));
      discriminate.
Defined.

Lemma users_read_or_anonymous (u : list (jsstring * jsstring)) (id : jsstring) :
  ∃ name,
    js_or (users_read u id) (JStr Anonymous) = JStr name
    ∧ name ≠ []
    ∧ (∀ n, users_get u id = Some n → n ≠ [] → name = n)
    ∧ (users_get u id = None → name = Anonymous).
Proof.
  unfold js_or, users_read.
  destruct (users_get u id) as [[|c r]|]; simpl.
  - exists Anonymous. repeat split; try done. by intros n [= <-].
  - exists (c :: r). repeat split; try done. by intros n [= <-].
  - by exists Anonymous.
Qed.

(** X10: on the live channel the identity in an envelope never comes
    from the payload.  Whatever the client sends, every envelope the
    handler emits has the socket's own identifier as senderId, the
    server's clock as timestamp and, as username, the non-empty name
    the registry holds for the socket, or "Anonymous".  Of a payload
    that is not a bare string the handler reads the properties
    message, recipientId and type and nothing else: two payloads that
    agree on these three are handled alike. *)
Theorem X10_identity_from_socket (w : World) (id : jsstring) (now : Z) :
  (∀ (data : JSValue) (e : Emit),
     In e (emitted (on_chat_message id data now (fresh w)).2) →
     envelope_field (packet e).2 (lit "senderId") = JStr id
     ∧ envelope_field (packet e).2 (lit "timestamp") = JNum now
     ∧ ∃ name,
         envelope_field (packet e).2 (lit "username") = JStr name
         ∧ name ≠ []
         ∧ (∀ n, users_get (users w) id = Some n → n ≠ [] → name = n)
         ∧ (users_get (users w) id = None → name = Anonymous))
  ∧ (∀ d1 d2 : JSValue,
       is_string d1 = false → is_string d2 = false →
       get_prop d1 (lit "message") = get_prop d2 (lit "message") →
       get_prop d1 (lit "recipientId") = get_prop d2 (lit "recipientId") →
       get_prop d1 (lit "type") = get_prop d2 (lit "type") →
       on_chat_message id d1 now w = on_chat_message id d2 now w).
Proof.
  split.
  - intros data e.
    destruct (users_read_or_anonymous (users w) id) as (name & Hname & Hrest).
    destruct (is_string data) eqn:Hs.
    + destruct data; try discriminate. rewrite on_chat_message_string. simpl.
      intros [<-|[]]. simpl. rewrite Hname. eauto.
    + destruct (get_prop data (lit "message")) as [m|] eqn:Hm.
      * destruct (get_prop_returns _ _ (lit "recipientId") _ Hm) as [rid Hr].
        destruct (get_prop_returns _ _ (lit "type") _ Hm) as [ty Ht].
        rewrite (on_chat_message_emits id data m rid ty now w Hs Hm Hr Ht).
        simpl. destruct (private_guard _ _); simpl.
        -- intros [<-|[<-|[]]]; simpl; rewrite Hname; eauto.
        -- intros [<-|[]]; simpl; rewrite Hname; eauto.
      * destruct data; try discriminate; by run_handler.
  - intros d1 d2 H1 H2 Hm Hr Ht. run_handler.
    by rewrite H1, H2, Hm, Hr, Ht.
Qed.

(** A payload that claims to come from Bob, sent by Alice. *)
Lemma X10_identity_from_socket_witness :
  envelope_field
    (packet (io_emit "chat message"
               (JObj [ (lit "username", JStr (lit "Alice"));
                       (lit "message", JStr (lit "hi"));
                       (lit "type", JStr (lit "text"));
                       (lit "senderId", JStr sockA);
                       (lit "recipientId", JNull);
                       (lit "timestamp", JNum 7) ]))).2
    (lit "senderId")
  = JStr sockA.
Proof.
  refine (proj1 (proj1 (X10_identity_from_socket three_connected sockA 7)
                   (JObj [ (lit "message", JStr (lit "hi"));
                           (lit "senderId", JStr sockB);
                           (lit "username", JStr (lit "Bob")) ])
                   _ _)).
  left. reflexivity.
Defined.

(** X11: chat messages and uploads never touch presence: whatever
    their payload, and even when the chat handler throws, the registry
    and the set of connected sockets are the same after the event as
    before. *)
Theorem X11_messages_keep_presence
  (w : World) (id : jsstring) (data : JSValue) (req : Request) (now : Z) :
  users (handle (ChatMessage id data now) w).2 = users w
  ∧ sockets (handle (ChatMessage id data now) w).2 = sockets w
  ∧ users (handle (Upload req now) w).2 = users w
  ∧ sockets (handle (Upload req now) w).2 = sockets w.
Proof. by rewrite !handle_users, !handle_sockets. Qed.

(** X12: a message addressed to an identifier that no connected socket
    has is not dropped: every connected client receives it, with the
    message as sent and the recipientId field still naming the intended
    recipient. *)
Theorem X12_stale_recipient_is_broadcast
  (w : World) (id r : jsstring) (data message : JSValue) (now : Z) :
  get_prop data (lit "message") = Returned message →
  get_prop data (lit "recipientId") = Returned (JStr r) →
  r ≠ [] → r ∉ sockets w →
  ∃ payload,
    envelope_field payload (lit "recipientId") = JStr r
    ∧ envelope_field payload (lit "message") = message
    ∧ emitted (on_chat_message id data now (fresh w)).2
      = [io_emit "chat message" payload]
    ∧ ∀ c, c ∈ sockets w →
           inbox (sockets w) c (emitted (on_chat_message id data now (fresh w)).2)
           = [("chat message"%string, payload)].
Proof.
  intros Hm Hr Hne Hout.
  assert (Hs : is_string data = false).
  { destruct (is_string data) eqn:Hs; [|done].
    by pose proof (get_prop_string _ _ _ Hs Hr). }
  destruct (get_prop_returns _ _ (lit "type") _ Hm) as [ty Ht].
  rewrite (on_chat_message_emits id data message (JStr r) ty now w Hs Hm Hr Ht).
  assert (Hor : js_or (JStr r) JNull = JStr r) by (by destruct r).
  rewrite Hor. simpl emitted.
  assert (Hg : private_guard (sockets w) (JStr r) = false).
  { destruct (private_guard (sockets w) (JStr r)) eqn:Hg; [|done].
    apply private_guard_true in Hg as (r' & [= <-] & _ & Hin). done. }
  rewrite Hg. eexists. split; [|split; [|split; [reflexivity|]]]; try done.
  intros c Hc. rewrite inbox_broadcast. by rewrite decide_True.
Qed.

(** Alice writes to an identifier nobody has; Carol reads the message. *)
Lemma X12_stale_recipient_is_broadcast_witness :
  ∃ payload,
    envelope_field payload (lit "recipientId") = JStr (lit "ghost-id")
    ∧ envelope_field payload (lit "message") = JStr (lit "secret")
    ∧ inbox (sockets three_connected) sockC
        (emitted (on_chat_message sockA (secret_for (lit "ghost-id")) 7
                    (fresh three_connected)).2)
      = [("chat message"%string, payload)].
Proof.
  destruct (X12_stale_recipient_is_broadcast three_connected sockA (lit "ghost-id")
              (secret_for (lit "ghost-id")) (JStr (lit "secret")) 7
              eq_refl eq_refl) as (payload & H1 & H2 & _ & H4).
  - discriminate.
  - vm_compute. intros H. discriminate H.
  - exists payload. split; [exact H1|]. split; [exact H2|].
    apply H4. vm_compute. reflexivity.
Defined.

(** ** The upload handler *)

Lemma envelope_username_throws_iff (u : list (jsstring * jsstring)) (fs : FormBody) :
  (∃ err, envelope_username u fs = Threw err)
  ↔ truthy (field (body_username fs)) = false
    ∧ ∃ v, body_senderId fs = Some v
           ∧ truthy (form_js v) = true
           ∧ ∃ err, property_key v = Threw err.
Proof.
  unfold envelope_username, sender_name.
  destruct (truthy (field (body_username fs))).
  { split; [by intros [? ?]|by intros [? _]]. }
  destruct (body_senderId fs) as [v|].
  2: { split; [by intros [? ?]|by intros (_ & ? & ? & _)]. }
  destruct (truthy (form_js v)) eqn:Hv.
  2: { split; [by intros [? ?]|]. intros (_ & v' & [= <-] & Hv' & _). congruence. }
  destruct (property_key v) as [k|err] eqn:Hk.
  - split.
    + destruct (truthy (users_index u k)); by intros [? ?].
    + intros (_ & v' & [= <-] & _ & err & Herr). congruence.
  - split; [|eauto]. intros _. split; [done|]. exists v. eauto.
Qed.

(** X13: the upload handler never throws and always answers: 400
    exactly when the body is parsed and the file is missing; 200 exactly
    when body and file are there and the envelope's username can be
    worked out; 500 exactly when the body is not parsed or, with body
    and file there, working out the username throws, which happens
    exactly when the form gives no username and a senderId that cannot
    be made a property key, such as one sent as [senderId[a]].  The
    handler emits something exactly when it answers 200, and never
    writes the registry. *)
Theorem X13_upload_always_answers (w : World) (req : Request) (now : Z) :
  ∃ resp w',
    upload_handler req now (fresh w) = (Returned resp, w')
    ∧ users w' = users w
    ∧ (emitted w' ≠ [] ↔ status resp = 200%Z)
    ∧ (resp = no_file_uploaded ↔ body req ≠ None ∧ file req = None)
    ∧ (status resp = 200%Z
       ↔ ∃ f fs name, file req = Some f ∧ body req = Some fs
                      ∧ envelope_username (users w) fs = Returned name)
    ∧ (resp = upload_failed
       ↔ body req = None
         ∨ ∃ f fs, file req = Some f ∧ body req = Some fs
                   ∧ truthy (field (body_username fs)) = false
                   ∧ ∃ v, body_senderId fs = Some v
                          ∧ truthy (form_js v) = true
                          ∧ ∃ err, property_key v = Threw err).
Proof.
  destruct (body req) as [fs|] eqn:Hb.
  - destruct (file req) as [f|] eqn:Hf.
    + destruct (envelope_username (users w) fs) as [name|err] eqn:Hname.
      * rewrite (upload_handler_emits req f fs name now w Hf Hb Hname).
        eexists _, _. split; [reflexivity|]. simpl.
        split; [done|]. split.
        { split; [done|]. intros _. destruct (private_guard _ _); done. }
        split; [split; [discriminate|by intros [_ ?]]|].
        split; [split; [eauto 10|done]|].
        split; [discriminate|].
        intros [?|(f' & fs' & [= <-] & [= <-] & Hthrow)]; [done|].
        assert (∃ err, envelope_username (users w) fs = Threw err) as [err Herr]
          by (by apply envelope_username_throws_iff).
        congruence.
      * rewrite (proj2 (upload_handler_throws req f fs err now (fresh w)
                          Hf Hb Hname)).
        eexists _, _. split; [reflexivity|]. simpl.
        split; [done|]. split; [split; [done|discriminate]|].
        split; [split; [discriminate|by intros [_ ?]]|].
        split.
        { split; [discriminate|].
          intros (f' & fs' & name & [= <-] & [= <-] & Hn). congruence. }
        split; [|done]. intros _. right. exists f, fs.
        split; [done|]. split; [done|].
        apply (proj1 (envelope_username_throws_iff (users w) fs)). eauto.
    + eexists _, _. split; [run_handler; by rewrite Hb, Hf|]. simpl.
      split; [done|]. split; [split; [done|discriminate]|].
      split; [done|].
      split; [split; [discriminate|by intros (? & ? & ? & ? & _)]|].
      split; [discriminate|].
      by intros [?|(? & ? & ? & _)].
  - eexists _, _. split; [run_handler; by rewrite Hb|]. simpl.
    split; [done|]. split; [split; [done|discriminate]|].
    split; [split; [discriminate|by intros [? _]]|].
    split; [split; [discriminate|by intros (? & ? & ? & _ & ? & _)]|].
    split; [by left|done].
Qed.

(** An upload with a file, no username and a field named
    [senderId[a]]: the handler answers 500. *)
Lemma X13_upload_always_answers_witness :
  (upload_handler
     {| file := Some {| originalname := lit "photo.png";
                        filename := storage_filename 1700000000000 (lit "photo.png");
                        size := 1024 |};
        body := Some {| body_senderId := Some (FObj [(lit "a", FStr sockA)]);
                        body_recipientId := None;
                        body_username := None;
                        body_type := None |} |}
     7 (fresh three_connected)).1
  = Returned upload_failed.
Proof.
  match goal with |- (upload_handler ?rq _ _).1 = _ =>
    destruct (X13_upload_always_answers three_connected rq 7)
      as (resp & w' & Hrun & _ & _ & _ & _ & H500) end.
  rewrite Hrun. simpl. f_equal. apply H500. right.
  eexists _, _. split; [reflexivity|]. split; [reflexivity|].
  split; [reflexivity|]. eexists. split; [reflexivity|].
  split; [reflexivity|]. eexists. reflexivity.
Defined.

(** X14: when an upload succeeds, the URL the uploader gets back is the
    message of every envelope dispatched for it, the path [/uploads/]
    followed by the stored file name; the envelope also carries the
    original, unsanitized file name, the type the form gave or "file"
    when the form gave none, the senderId the form gave, unchecked, and
    the handler's clock. *)
Theorem X14_upload_envelope
  (w : World) (req : Request) (f : File) (fs : FormBody) (now : Z) (e : Emit) :
  file req = Some f → body req = Some fs →
  In e (emitted (upload_handler req now (fresh w)).2) →
  (upload_handler req now (fresh w)).1
  = Returned (upload_ok (lit "/uploads/" ++ filename f))
  ∧ envelope_field (packet e).2 (lit "message")
    = JStr (lit "/uploads/" ++ filename f)
  ∧ envelope_field (packet e).2 (lit "originalName") = JStr (originalname f)
  ∧ envelope_field (packet e).2 (lit "type")
    = (if truthy (field (body_type fs)) then field (body_type fs)
       else JStr (lit "file"))
  ∧ envelope_field (packet e).2 (lit "senderId") = field (body_senderId fs)
  ∧ envelope_field (packet e).2 (lit "timestamp") = JNum now.
Proof.
  intros Hf Hb.
  destruct (envelope_username (users w) fs) as [name|err] eqn:Hname;
    [|by rewrite (proj2 (upload_handler_throws req f fs err now (fresh w)
                           Hf Hb Hname))].
  rewrite (upload_handler_emits req f fs name now w Hf Hb Hname). simpl.
  intros He. split; [done|].
  destruct (private_guard _ _); simpl in He.
  - destruct (truthy (field (body_senderId fs))); simpl in He.
    + by destruct He as [<-|[<-|[]]].
    + by destruct He as [<-|[]].
  - by destruct He as [<-|[]].
Qed.

(** An upload by Alice, broadcast. *)
Lemma X14_upload_envelope_witness :
  envelope_field
    (packet (hd (io_emit "" JNull)
               (emitted (upload_handler (photo_upload (Some sockA) None) 7
                           (fresh three_connected)).2))).2
    (lit "message")
  = JStr (lit "/uploads/" ++ storage_filename 1700000000000 (lit "photo.png")).
Proof.
  refine (proj1 (proj2
            (X14_upload_envelope three_connected (photo_upload (Some sockA) None)
               _ _ 7 _ eq_refl eq_refl _))).
  vm_compute. left. reflexivity.
Defined.

Lemma envelope_username_cases
    (u : list (jsstring * jsstring)) (fs : FormBody) (name : JSValue) :
  envelope_username u fs = Returned name →
  truthy name = true
  ∧ (truthy (field (body_username fs)) = true → name = field (body_username fs))
  ∧ (truthy (field (body_username fs)) = false →
     (truthy (field (body_senderId fs)) = false → name = JStr Anonymous)
     ∧ ∀ v k, body_senderId fs = Some v → truthy (form_js v) = true →
              property_key v = Returned k →
              (∀ n, users_get u k = Some n → n ≠ [] → name = JStr n)
              ∧ (users_get u k = Some [] → name = JStr Anonymous)
              ∧ (users_get u k = None →
                 name = if truthy (object_prototype k) then object_prototype k
                        else JStr Anonymous)).
Proof.
  unfold envelope_username.
  destruct (truthy (field (body_username fs))) eqn:Hu.
  { unfold js_or. rewrite Hu. intros [= <-]. by repeat split. }
  unfold sender_name. destruct (body_senderId fs) as [v|]; simpl.
  2: { intros [= <-]. split; [done|]. split; [done|]. intros _.
       split; [done|]. by intros v k. }
  destruct (truthy (form_js v)) eqn:Hv.
  2: { intros [= <-]. split; [done|]. split; [done|]. intros _.
       split; [done|]. intros v' k [= <-]. congruence. }
  destruct (property_key v) as [k|err] eqn:Hk; [|discriminate].
  unfold users_index.
  destruct (users_get u k) as [[|c n]|] eqn:Hg; simpl.
  - intros [= <-]. split; [done|]. split; [done|]. intros _.
    split; [done|]. intros v' k' [= <-] _ Hk'.
    assert (k' = k) as -> by congruence. rewrite Hg.
    split; [by intros n [= <-]|]. by split.
  - intros [= <-]. split; [done|]. split; [done|]. intros _.
    split; [done|]. intros v' k' [= <-] _ Hk'.
    assert (k' = k) as -> by congruence. rewrite Hg.
    split; [by intros n' [= <-]|]. by split.
  - destruct (truthy (object_prototype k)) eqn:Hp.
    + unfold js_or. rewrite Hp. intros [= <-]. split; [done|].
      split; [done|]. intros _. split; [done|]. intros v' k' [= <-] _ Hk'.
      assert (k' = k) as -> by congruence. rewrite Hg, Hp. by repeat split.
    + intros [= <-]. split; [done|]. split; [done|]. intros _.
      split; [done|]. intros v' k' [= <-] _ Hk'.
      assert (k' = k) as -> by congruence. rewrite Hg, Hp. by repeat split.
Qed.

(** X15: the username of an upload envelope is never a falsy value.  It
    is the username field of the form when that is non-empty, as given
    and whoever the sender is.  Otherwise it is "Anonymous" when the
    form gives no senderId or an empty one; and for any other senderId
    it is what [users] yields for it as a property key: the non-empty
    name registered under that key, or, when no name is registered
    under it, what [Object.prototype] holds for the key (the empty
    object for [__proto__], a built-in function for [constructor] or
    [toString]), or "Anonymous" when that holds nothing either. *)
Theorem X15_upload_username
  (w : World) (req : Request) (f : File) (fs : FormBody) (now : Z) (e : Emit) :
  file req = Some f → body req = Some fs →
  In e (emitted (upload_handler req now (fresh w)).2) →
  ∃ name,
    envelope_field (packet e).2 (lit "username") = name
    ∧ truthy name = true
    ∧ (truthy (field (body_username fs)) = true → name = field (body_username fs))
    ∧ (truthy (field (body_username fs)) = false →
       (truthy (field (body_senderId fs)) = false → name = JStr Anonymous)
       ∧ ∀ v k, body_senderId fs = Some v → truthy (form_js v) = true →
                property_key v = Returned k →
                (∀ n, users_get (users w) k = Some n → n ≠ [] → name = JStr n)
                ∧ (users_get (users w) k = Some [] → name = JStr Anonymous)
                ∧ (users_get (users w) k = None →
                   name = if truthy (object_prototype k) then object_prototype k
                          else JStr Anonymous)).
Proof.
  intros Hf Hb.
  destruct (envelope_username (users w) fs) as [name|err] eqn:Hname;
    [|by rewrite (proj2 (upload_handler_throws req f fs err now (fresh w)
                           Hf Hb Hname))].
  rewrite (upload_handler_emits req f fs name now w Hf Hb Hname). simpl.
  intros He. exists name.
  split; [|exact (envelope_username_cases (users w) fs name Hname)].
  destruct (private_guard _ _); simpl in He.
  - destruct (truthy (field (body_senderId fs))); simpl in He.
    + by destruct He as [<-|[<-|[]]].
    + by destruct He as [<-|[]].
  - by destruct He as [<-|[]].
Qed.

(** An upload whose senderId is [__proto__], with no username: the
    envelope's username is the empty object. *)
Lemma X15_upload_username_witness :
  envelope_field
    (packet (hd (io_emit "" JNull)
               (emitted (upload_handler (photo_upload (Some (lit "__proto__")) None) 7
                           (fresh three_connected)).2))).2
    (lit "username")
  = JObj [].
Proof.
  destruct (X15_upload_username three_connected
              (photo_upload (Some (lit "__proto__")) None)
              _ _ 7 (hd (io_emit "" JNull)
                       (emitted (upload_handler
                                   (photo_upload (Some (lit "__proto__")) None) 7
                                   (fresh three_connected)).2))
              eq_refl eq_refl) as (name & H1 & _ & _ & H4).
  - vm_compute. left. reflexivity.
  - rewrite H1.
    destruct (H4 eq_refl) as [_ H5].
    destruct (H5 (FStr (lit "__proto__")) (lit "__proto__") eq_refl eq_refl eq_refl)
      as (_ & _ & H8).
    rewrite (H8 eq_refl). reflexivity.
Defined.

(** ** Stored file names *)

Lemma lit_String (a : ascii) (s : string) :
  lit (String a s) = N_of_ascii a :: lit s.
Proof. reflexivity. Qed.

Lemma lit_inj (s t : string) : lit s = lit t → s = t.
Proof.
  revert t. induction s as [|a s IH]; intros [|b t]; try discriminate; [done|].
  rewrite !lit_String. intros [= Hab Hst].
  f_equal; [|by apply IH].
  by rewrite <- (ascii_N_embedding a), <- (ascii_N_embedding b), Hab.
Qed.

Lemma is_digit_safe (c : N) : is_digit c = true → is_safe_char c = true.
Proof.
  unfold is_digit, is_safe_char. intros ->.
  by rewrite orb_true_r.
Qed.

Lemma forallb_digit_safe (s : jsstring) :
  forallb is_digit s = true → forallb is_safe_char s = true.
Proof.
  induction s as [|c r IH]; simpl; [done|].
  intros [Hc Hr]%andb_true_iff. by rewrite (is_digit_safe c Hc), IH.
Qed.

Lemma string_of_uint_digits (d : Decimal.uint) :
  forallb is_digit (lit (NilEmpty.string_of_uint d)) = true.
Proof. induction d; simpl; rewrite ?lit_String; simpl; by rewrite ?IHd. Qed.

Lemma nilzero_string_of_uint_digits (d : Decimal.uint) :
  lit (NilZero.string_of_uint d) ≠ []
  ∧ forallb is_digit (lit (NilZero.string_of_uint d)) = true.
Proof.
  destruct d; simpl; rewrite ?lit_String; simpl;
    (split; [done|]); try done; apply string_of_uint_digits.
Qed.

(** The decimal form of a number: an optional minus sign, then at least
    one digit. *)
Lemma number_to_string_shape (n : Z) :
  ∃ sign digits,
    number_to_string n = sign ++ digits
    ∧ (sign = [] ∨ sign = lit "-")
    ∧ digits ≠ []
    ∧ forallb is_digit digits = true.
Proof.
  unfold number_to_string. destruct n as [|p|p]; simpl.
  - exists [], (lit "0"). by repeat split; [left|..].
  - exists [], (lit (NilZero.string_of_uint (Pos.to_uint p))).
    destruct (nilzero_string_of_uint_digits (Pos.to_uint p)).
    by repeat split; [left|..].
  - exists (lit "-"), (lit (NilZero.string_of_uint (Pos.to_uint p))).
    destruct (nilzero_string_of_uint_digits (Pos.to_uint p)).
    by repeat split; [right|..].
Qed.

Lemma number_to_string_inj (n m : Z) :
  number_to_string n = number_to_string m → n = m.
Proof.
  unfold number_to_string. intros H%lit_inj.
  apply DecimalZ.to_int_inj.
  assert (Hnn : ∀ z, Z.to_int z ≠ Decimal.Pos Decimal.Nil
                     ∧ Z.to_int z ≠ Decimal.Neg Decimal.Nil).
  { intros [|p|p]; simpl; split; try discriminate;
      intros [= Hp]; by apply (DecimalPos.Unsigned.to_uint_nonnil p). }
  destruct (Hnn n) as [Hn1 Hn2]. destruct (Hnn m) as [Hm1 Hm2].
  pose proof (NilZero.isi _ Hn1 Hn2) as Hin.
  pose proof (NilZero.isi _ Hm1 Hm2) as Him.
  rewrite H in Hin. congruence.
Qed.

(** Digits followed by a hyphen: where the hyphen is tells where the
    digits end. *)
Lemma digits_then_hyphen (d1 d2 r1 r2 : jsstring) :
  forallb is_digit d1 = true → forallb is_digit d2 = true →
  d1 ++ 45 :: r1 = d2 ++ 45 :: r2 → d1 = d2 ∧ r1 = r2.
Proof.
  revert d2. induction d1 as [|c1 d1 IH]; intros [|c2 d2]; simpl.
  - by intros _ _ [= ->].
  - intros _ [Hc _]%andb_true_iff [= <- _]. done.
  - intros [Hc _]%andb_true_iff _ [= -> _]. done.
  - intros [_ H1]%andb_true_iff [_ H2]%andb_true_iff [= -> Hr].
    destruct (IH d2 H1 H2 Hr) as [-> ->]. done.
Qed.

(** X16: the name a file is stored under consists of characters of
    [A-Za-z0-9._-] only, whatever the original name and the clock: it
    holds no slash and no backslash, it contains a hyphen and so is
    neither "." nor "..": appended to [/uploads/] it is a single path
    segment. *)
Theorem X16_stored_filename_is_one_segment (now : Z) (name : jsstring) :
  forallb is_safe_char (storage_filename now name) = true
  ∧ ¬ In 47 (storage_filename now name)
  ∧ ¬ In 92 (storage_filename now name)
  ∧ In 45 (storage_filename now name)
  ∧ storage_filename now name ≠ lit "."
  ∧ storage_filename now name ≠ lit "..".
Proof.
  assert (Hsafe : forallb is_safe_char (storage_filename now name) = true).
  { unfold storage_filename. rewrite !forallb_app, safeName_safe.
    destruct (number_to_string_shape now) as (sign & digits & -> & Hsign & _ & Hd).
    rewrite forallb_app, (forallb_digit_safe _ Hd).
    by destruct Hsign as [-> | ->]. }
  assert (Hhyphen : In 45 (storage_filename now name)).
  { unfold storage_filename. apply in_or_app. right. by left. }
  split; [done|].
  assert (Hnot : ∀ c, is_safe_char c = false → ¬ In c (storage_filename now name)).
  { intros c Hc Hin. rewrite forallb_forall in Hsafe.
    rewrite (Hsafe c Hin) in Hc. discriminate. }
  split; [by apply Hnot|]. split; [by apply Hnot|]. split; [done|].
  split; intros Heq; rewrite Heq in Hhyphen; simpl in Hhyphen;
    repeat destruct Hhyphen as [Hhyphen|Hhyphen]; try discriminate; done.
Qed.

(** X17: the capture time can be read back from a stored name: two
    files get the same stored name only if they were stored in the same
    millisecond and their original names sanitize to the same string.
    Files stored at different times never overwrite each other. *)
Theorem X17_stored_filename_tells_time (t1 t2 : Z) (n1 n2 : jsstring) :
  storage_filename t1 n1 = storage_filename t2 n2 →
  t1 = t2 ∧ safeName n1 = safeName n2.
Proof.
  unfold storage_filename.
  destruct (number_to_string_shape t1) as (s1 & d1 & E1 & Hs1 & Hn1 & Hd1).
  destruct (number_to_string_shape t2) as (s2 & d2 & E2 & Hs2 & Hn2 & Hd2).
  intros H.
  assert (number_to_string t1 = number_to_string t2 ∧ safeName n1 = safeName n2)
    as [Hnum Hname]; [|split; [by apply number_to_string_inj|done]].
  rewrite E1, E2 in H |- *.
  change (lit "-") with [45] in *. rewrite <- !app_assoc in H. simpl in H.
  destruct Hs1 as [-> | ->], Hs2 as [-> | ->]; simpl in H |- *.
  - by destruct (digits_then_hyphen _ _ _ _ Hd1 Hd2 H) as [-> ->].
  - destruct d1 as [|c d1]; [done|]. simpl in H, Hd1.
    injection H as -> _. done.
  - destruct d2 as [|c d2]; [done|]. simpl in H, Hd2.
    injection H as <- _. done.
  - injection H as H.
    by destruct (digits_then_hyphen _ _ _ _ Hd1 Hd2 H) as [-> ->].
Qed.

(** Two names that sanitize alike, stored in the same millisecond. *)
Lemma X17_stored_filename_tells_time_witness :
  1700000000123%Z = 1700000000123%Z
  ∧ safeName (lit "my file.png") = safeName (lit "my_file.png").
Proof.
  apply (X17_stored_filename_tells_time 1700000000123 1700000000123
           (lit "my file.png") (lit "my_file.png")).
  vm_compute. reflexivity.
Defined.

Lemma safeName_fixed (name : jsstring) :
  forallb is_safe_char name = true → safeName name = name.
Proof.
  rewrite safeName_map. induction name as [|c r IH]; simpl; [done|].
  intros [Hc Hr]%andb_true_iff. by rewrite Hc, IH.
Qed.

(** X18: sanitizing a file name twice is sanitizing it once, and the
    names sanitizing leaves alone are exactly those made of characters
    of the class; hence a name with any other character and its
    sanitized form are two different original names that are stored
    under one and the same name when they arrive in the same
    millisecond. *)
Theorem X18_sanitizing_is_idempotent (now : Z) (name : jsstring) :
  safeName (safeName name) = safeName name
  ∧ (safeName name = name ↔ forallb is_safe_char name = true)
  ∧ storage_filename now (safeName name) = storage_filename now name.
Proof.
  assert (Hidem : safeName (safeName name) = safeName name)
    by apply safeName_fixed, safeName_safe.
  split; [done|]. split.
  - split; [intros <-; apply safeName_safe|apply safeName_fixed].
  - unfold storage_filename. by rewrite Hidem.
Qed.

(** ** The broadcast user list and the registry *)

Lemma last_user_list_app (es new : list Emit) :
  last_user_list (es ++ new)
  = fold_left (λ acc e, if is_user_list e then Some (packet e).2 else acc)
      new (last_user_list es).
Proof. unfold last_user_list. by rewrite fold_left_app. Qed.

(** Emissions that are no [user list] broadcast and do not write the
    registry keep the list in sync. *)
Lemma list_in_sync_frame (w w' : World) (new : list Emit) :
  users w' = users w → emitted w' = emitted w ++ new →
  forallb (λ e, negb (is_user_list e)) new = true →
  list_in_sync w → list_in_sync w'.
Proof.
  unfold list_in_sync. intros -> -> Hnew. rewrite last_user_list_app.
  revert Hnew. generalize (last_user_list (emitted w)) as acc.
  induction new as [|e r IH]; intros acc; simpl; [done|].
  intros [He Hr]%andb_true_iff. apply negb_true_iff in He. rewrite He.
  by apply IH.
Qed.

Lemma on_chat_message_in_sync (id : jsstring) (data : JSValue) (now : Z) (w : World) :
  list_in_sync w → list_in_sync (on_chat_message id data now w).2.
Proof.
  intros Hw. destruct (is_string data) eqn:Hs.
  - destruct data; try discriminate. rewrite on_chat_message_string.
    eapply (list_in_sync_frame w); [reflexivity|reflexivity|reflexivity|exact Hw].
  - destruct (get_prop data (lit "recipientId")) as [rid|] eqn:Hr.
    + destruct (on_chat_message_object id data rid now w Hs Hr)
        as (payload & _ & _ & _ & ->).
      eapply (list_in_sync_frame w); [reflexivity|reflexivity| |exact Hw].
      by destruct (private_guard _ _).
    + destruct data; try discriminate; exact Hw.
Qed.

Lemma upload_handler_in_sync (req : Request) (now : Z) (w : World) :
  list_in_sync w → list_in_sync (upload_handler req now w).2.
Proof.
  intros Hw.
  destruct (body req) as [fs|] eqn:Hb;
    [|run_handler; rewrite Hb; exact Hw].
  destruct (file req) as [f|] eqn:Hf;
    [|run_handler; rewrite Hb, Hf; exact Hw].
  destruct (envelope_username (users w) fs) as [name|err] eqn:Hname;
    [|by rewrite (proj2 (upload_handler_throws req f fs err now w Hf Hb Hname))].
  destruct (upload_handler_file req f fs name now w Hf Hb Hname)
    as (payload & _ & _ & _ & _ & ->).
  eapply (list_in_sync_frame w); [reflexivity|reflexivity| |exact Hw].
  destruct (private_guard _ _); [|done]. by destruct (truthy _).
Qed.

Lemma handle_in_sync (e : Event) (w : World) :
  list_in_sync w → list_in_sync (handle e w).2.
Proof.
  intros Hw. destruct e as [id|id v|id v now|id|req now].
  - by apply (list_in_sync_frame w _ [socket_emit id "your id" (JStr id)]).
  - unfold handle, bind at 1.
    destruct (assigned_name v) as [a|[]] eqn:Ha.
    + rewrite (on_set_username_run _ _ a) by done. simpl.
      unfold list_in_sync. simpl. by rewrite last_user_list_app.
    + by rewrite on_set_username_throws.
  - pose proof (on_chat_message_in_sync id v now w Hw) as H.
    unfold handle, bind at 1. by destruct (on_chat_message id v now w) as [[|] ?].
  - unfold handle, bind at 1. simpl. unfold bind at 1.
    rewrite on_disconnect_run. simpl.
    unfold list_in_sync. simpl. rewrite last_user_list_app. simpl.
    by destruct (users_get (users w) id) as [[|c n]|].
  - pose proof (upload_handler_in_sync req now w Hw) as H.
    unfold handle, bind at 1. by destruct (upload_handler req now w) as [[|] ?].
Qed.

(** X19: the user list the clients were last sent is the registry.
    After any events handled since start-up, the list carried by the
    latest [user list] broadcast is the list of the registry as it
    stands, and as long as no such broadcast was made the registry is
    empty: no handler changes the registry without broadcasting it. *)
Theorem X19_user_list_in_sync (es : list Event) :
  match last_user_list (emitted (handle_all es initial).2) with
  | Some l => l = user_list (users (handle_all es initial).2)
  | None => users (handle_all es initial).2 = []
  end.
Proof.
  change (list_in_sync (handle_all es initial).2).
  assert (Hgen : ∀ w, list_in_sync w → list_in_sync (handle_all es w).2);
    [|by apply Hgen].
  induction es as [|e r IH]; intros w Hw; [done|].
  change (handle_all (e :: r) w) with ((handle e ;; handle_all r) w).
  unfold bind. pose proof (handle_in_sync e w Hw) as He.
  destruct (handle e w) as [[x|err] w1]; simpl in *; [by apply IH|done].
Qed.
